(** * Financial analysis endpoints: validators, analytics transform and
      error mapping of the four FastAPI services.

    The development embeds
    - [validate_symbol] and [validate_date] (shared by the services),
    - the analytics transform of [get_company_analysis]
      (company_analysis_api1.py),
    - the request handlers of the four services together with their
      [try]/[except] error mapping,
    and settles the properties of the specification against them.

    Modelling conventions.
    - Python [str] values are ASCII strings ([string]); code points above
      127 are outside the model.  (The date validator reads digits,
      hyphens and blanks only, and no code point from 128 to 255 is a
      decimal digit: on date strings the model is exact up to 255.)
    - numpy/pandas [float64] values are Rocq primitive floats (IEEE 754
      binary64); [NaN] is pandas' missing marker.
    - Raising and catching exceptions is an error monad that also threads
      the log of calls made to the data provider. *)

From Stdlib Require Import QArith.
From Stdlib Require Import ZArith List String Ascii Bool Lia.
From Stdlib Require Import DecimalString.
From Stdlib Require Import Floats.
Import ListNotations.
Close Scope Q_scope.

Set Warnings "-inexact-float".

Local Open Scope string_scope.
Local Open Scope Z_scope.

(* ===================================================================== *)
(** * Part I: the embedding                                               *)
(* ===================================================================== *)

(** ** Python string primitives used by the services *)
Module PyStr.

Definition char_between (lo hi c : ascii) : bool :=
  (nat_of_ascii lo <=? nat_of_ascii c)%nat && (nat_of_ascii c <=? nat_of_ascii hi)%nat.

Definition isdigit_char (c : ascii) : bool := char_between "0" "9" c.
Definition isupper_char (c : ascii) : bool := char_between "A" "Z" c.
Definition islower_char (c : ascii) : bool := char_between "a" "z" c.
Definition isalnum_char (c : ascii) : bool :=
  isupper_char c || islower_char c || isdigit_char c.

(** ASCII white space ([str.isspace]) and punctuation
    ([string.punctuation]). *)
Definition isspace_char (c : ascii) : bool :=
  char_between "009" "013" c || char_between "028" "032" c.
Definition ispunct_char (c : ascii) : bool :=
  char_between "!" "/" c || char_between ":" "@" c
  || char_between "[" "`" c || char_between "{" "~" c.

Fixpoint all_chars (p : ascii -> bool) (s : string) : bool :=
  match s with
  | EmptyString => true
  | String c r => p c && all_chars p r
  end.

(** [s.isalnum()]: every character is alphanumeric and there is at least
    one character. *)
Definition isalnum (s : string) : bool :=
  match s with
  | EmptyString => false
  | String _ _ => all_chars isalnum_char s
  end.

(** [c in s] for a one-character [c]. *)
Fixpoint has_char (c : ascii) (s : string) : bool :=
  match s with
  | EmptyString => false
  | String a r => Ascii.eqb a c || has_char c r
  end.

(** [s.split(sep)] for a one-character separator: empty pieces are kept,
    and the empty string splits into one empty piece. *)
Fixpoint split (sep : ascii) (s : string) : list string :=
  match s with
  | EmptyString => [EmptyString]
  | String a r =>
      if Ascii.eqb a sep then EmptyString :: split sep r
      else match split sep r with
           | [] => [String a EmptyString]
           | piece :: pieces => String a piece :: pieces
           end
  end.

(** [sep.join(pieces)]. *)
Fixpoint join (sep : ascii) (pieces : list string) : string :=
  match pieces with
  | [] => EmptyString
  | [p] => p
  | p :: rest => p ++ String sep (join sep rest)
  end.

Definition upper_char (c : ascii) : ascii :=
  if islower_char c then ascii_of_nat (nat_of_ascii c - 32) else c.
Definition lower_char (c : ascii) : ascii :=
  if isupper_char c then ascii_of_nat (nat_of_ascii c + 32) else c.

Fixpoint map_chars (f : ascii -> ascii) (s : string) : string :=
  match s with
  | EmptyString => EmptyString
  | String c r => String (f c) (map_chars f r)
  end.

(** [s.upper()] and [s.lower()]. *)
Definition upper (s : string) : string := map_chars upper_char s.
Definition lower (s : string) : string := map_chars lower_char s.

Fixpoint startswith (p s : string) : bool :=
  match p, s with
  | EmptyString, _ => true
  | String a p', String b s' => Ascii.eqb a b && startswith p' s'
  | String _ _, EmptyString => false
  end.

(** [sub in s]. *)
Fixpoint contains (sub s : string) : bool :=
  startswith sub s ||
  match s with
  | EmptyString => false
  | String _ r => contains sub r
  end.

(** [str(n)] for an integer. *)
Definition str_of_Z (n : Z) : string := NilZero.string_of_int (Z.to_int n).

(** The characters of a string, for stating properties. *)
Definition chars (s : string) : list ascii := list_ascii_of_string s.

End PyStr.

(** ** Symbol validation (identical in the four services) *)

(** [symbol.isalnum() or ('.' in symbol and
      all(part.isalnum() for part in symbol.split('.')))] *)
Definition validate_symbol (symbol : string) : bool :=
  PyStr.isalnum symbol
  || (PyStr.has_char "." symbol
      && forallb PyStr.isalnum (PyStr.split "." symbol)).

(** ** The regular expressions [datetime.strptime] builds from a format *)
Module Regex.

(** The fragment of [re] syntax that the directives [%Y], [%m], [%d] and
    literal characters expand to. *)
Inductive regex : Type :=
| Chr (c : ascii)                    (* a literal character *)
| Rng (lo hi : ascii)                (* [lo-hi] *)
| Seq (r1 r2 : regex)                (* r1 r2 *)
| Alt (r1 r2 : regex)                (* r1|r2 *)
| Group (name : string) (r : regex). (* (?P<name>r) *)

(** [\d]: a decimal digit.  Among the code points below 256 these are
    the digits 0 to 9; the decimal digits of other scripts, which [\d]
    matches as well, lie above and are outside the model. *)
Definition Digit : regex := Rng "0" "9".

Definition captures : Type := list (string * string).

(** One way of matching a prefix: the text consumed, the groups captured
    and the text left. *)
Definition outcome : Type := (string * captures * string)%type.

(** All the ways [r] matches a prefix of [s], in the order a backtracking
    matcher tries them (left alternative first). *)
Fixpoint matches (r : regex) (s : string) : list outcome :=
  match r with
  | Chr c =>
      match s with
      | String a rest =>
          if Ascii.eqb a c then [(String a EmptyString, [], rest)] else []
      | EmptyString => []
      end
  | Rng lo hi =>
      match s with
      | String a rest =>
          if PyStr.char_between lo hi a
          then [(String a EmptyString, [], rest)] else []
      | EmptyString => []
      end
  | Seq r1 r2 =>
      flat_map
        (fun o1 : outcome =>
           let '(t1, c1, s1) := o1 in
           map (fun o2 : outcome =>
                  let '(t2, c2, s2) := o2 in (t1 ++ t2, (c1 ++ c2)%list, s2))
               (matches r2 s1))
        (matches r1 s)
  | Alt r1 r2 => (matches r1 s ++ matches r2 s)%list
  | Group name r1 =>
      map (fun o : outcome =>
             let '(t, c, s') := o in (t, (name, t) :: c, s'))
          (matches r1 s)
  end.

(** [regex.match(s)]: the first way of matching, if any. *)
Definition re_match (r : regex) (s : string) : option outcome :=
  hd_error (matches r s).

Fixpoint group (name : string) (c : captures) : option string :=
  match c with
  | [] => None
  | (n, t) :: rest => if String.eqb n name then Some t else group name rest
  end.

End Regex.

(** ** [datetime.strptime(date_str, "%Y-%m-%d")] *)
Module Strptime.
Import Regex.

(** ['Y': r"(?P<Y>\d\d\d\d)"] *)
Definition re_Y : regex := Group "Y" (Seq Digit (Seq Digit (Seq Digit Digit))).

(** ['m': r"(?P<m>1[0-2]|0[1-9]|[1-9])"] *)
Definition re_m : regex :=
  Group "m" (Alt (Seq (Chr "1") (Rng "0" "2"))
            (Alt (Seq (Chr "0") (Rng "1" "9"))
                 (Rng "1" "9"))).

(** ['d': r"(?P<d>3[0-1]|[1-2]\d|0[1-9]|[1-9]| [1-9])"] *)
Definition re_d : regex :=
  Group "d" (Alt (Seq (Chr "3") (Rng "0" "1"))
            (Alt (Seq (Rng "1" "2") Digit)
            (Alt (Seq (Chr "0") (Rng "1" "9"))
            (Alt (Rng "1" "9")
                 (Seq (Chr " ") (Rng "1" "9")))))).

(** The pattern of the format ["%Y-%m-%d"]. *)
Definition format_regex : regex :=
  Seq re_Y (Seq (Chr "-") (Seq re_m (Seq (Chr "-") re_d))).

Definition digit_val (c : ascii) : Z := Z.of_nat (nat_of_ascii c) - 48.

Fixpoint int_digits (acc : Z) (s : string) : option Z :=
  match s with
  | EmptyString => Some acc
  | String c r =>
      if PyStr.isdigit_char c then int_digits (10 * acc + digit_val c) r
      else None
  end.

(** [int(text)] on the texts the groups can capture: decimal digits,
    optionally after one blank (white space around the number is
    ignored by [int]). *)
Definition int_of_text (t : string) : option Z :=
  match t with
  | EmptyString => None
  | String c r =>
      if Ascii.eqb c " " then
        match r with
        | EmptyString => None
        | String _ _ => int_digits 0 r
        end
      else int_digits 0 t
  end.

(** [datetime._is_leap], [datetime._days_in_month] and the checks of
    [datetime._check_date_fields] ([MINYEAR = 1], [MAXYEAR = 9999]). *)
Definition is_leap (year : Z) : bool :=
  (year mod 4 =? 0) && (negb (year mod 100 =? 0) || (year mod 400 =? 0)).

Definition days_in_month (year month : Z) : Z :=
  if (month =? 2) && is_leap year then 29
  else nth (Z.to_nat month) [-1; 31; 28; 31; 30; 31; 30; 31; 31; 30; 31; 30; 31] (-1).

Definition check_date_fields (year month day : Z) : bool :=
  (1 <=? year) && (year <=? 9999)
  && (1 <=? month) && (month <=? 12)
  && (1 <=? day) && (day <=? days_in_month year month).

(** A parsed date (the time of day is always midnight for this format). *)
Definition date : Type := (Z * Z * Z)%type.

(** [strptime]: [None] stands for [ValueError] (no match, unconverted
    data left after the match, or fields that are no calendar date). *)
Definition strptime (date_str : string) : option date :=
  match re_match format_regex date_str with
  | None => None
  | Some (_, found, rest) =>
      match rest with
      | String _ _ => None
      | EmptyString =>
          match group "Y" found, group "m" found, group "d" found with
          | Some ty, Some tm, Some td =>
              match int_of_text ty, int_of_text tm, int_of_text td with
              | Some year, Some month, Some day =>
                  if check_date_fields year month day
                  then Some (year, month, day) else None
              | _, _, _ => None
              end
          | _, _, _ => None
          end
      end
  end.

(** [a < b] on the [datetime] values of two parsed dates. *)
Definition date_ltb (a b : date) : bool :=
  let '(ya, ma, da) := a in
  let '(yb, mb, db) := b in
  (ya <? yb) || ((ya =? yb) && ((ma <? mb) || ((ma =? mb) && (da <? db)))).

End Strptime.

(** [validate_date]: does [strptime] raise [ValueError]? *)
Definition validate_date (date_str : string) : bool :=
  match Strptime.strptime date_str with
  | Some _ => true
  | None => false
  end.

(** ** pandas / numpy primitives on [float64] *)
Module Pandas.
Local Open Scope float_scope.

(** A [float64] column. *)
Definition Series : Type := list float.

(** [pd.isna(x)]: [NaN] is the only value different from itself. *)
Definition isna (x : float) : bool := negb (x =? x).

(** [np.isinf(x)]. *)
Definition isinf (x : float) : bool := (abs x =? infinity).

(** [series.empty]. *)
Definition empty {A : Type} (s : list A) : bool :=
  match s with [] => true | _ :: _ => false end.

Fixpoint float_of_nat (n : nat) : float :=
  match n with
  | O => 0
  | S k => float_of_nat k + 1
  end.

(** [np.rint]: round to the nearest integer, ties to even, keeping the
    sign.  Below 2^52 adding and subtracting 2^52 rounds the magnitude in
    the unit place; from 2^52 on every float is an integer. *)
Definition two52 : float := 4503599627370496.
Definition rint (x : float) : float :=
  if abs x <? two52 then
    let r := (abs x + two52) - two52 in
    if get_sign x then - r else r
  else x.

(** [round(x, 2)] on a numpy [float64]: scale by [10**2], [rint], scale
    back. *)
Definition round2 (x : float) : float := rint (x * 100) / 100.


(** [series.dropna()]. *)
Definition dropna (s : Series) : Series := filter (fun x => negb (isna x)) s.

(** [series.shift(1)]. *)
Definition shift1 (s : Series) : Series :=
  match s with
  | [] => []
  | _ :: _ => nan :: removelast s
  end.

(** The [fill_method] of [pct_change].  The handler calls [pct_change()]
    without arguments, so the library default applies: forward filling
    ([Pad]) before pandas 3.0, no filling ([NoFill]) from 3.0 on. *)
Inductive fill_method : Type := Pad | NoFill.

(** [series.ffill()]: a missing value takes the last present value before
    it; leading missing values stay missing. *)
Fixpoint ffill_from (prev : float) (s : Series) : Series :=
  match s with
  | [] => []
  | x :: r => if isna x then prev :: ffill_from prev r
              else x :: ffill_from x r
  end.
Definition ffill (s : Series) : Series := ffill_from nan s.

Fixpoint zip_with {A B C : Type} (f : A -> B -> C) (l1 : list A) (l2 : list B)
  : list C :=
  match l1, l2 with
  | a :: r1, b :: r2 => f a b :: zip_with f r1 r2
  | _, _ => []
  end.

(** [series.pct_change()]: [data / data.shift(1) - 1]. *)
Definition pct_change (fm : fill_method) (s : Series) : Series :=
  let data := match fm with Pad => ffill s | NoFill => s end in
  zip_with (fun x prev => x / prev - 1) data (shift1 data).

(** [ndarray.sum()] on a contiguous [float64] array: numpy's pairwise
    summation ([DOUBLE_pairwise_sum]).  Fewer than 8 values are added from
    left to right; up to 128 values are added into 8 accumulators that
    are combined as a tree, the remainder added one by one; a longer
    array is split in two at a multiple of 8. *)
Fixpoint sum_blocks (r0 r1 r2 r3 r4 r5 r6 r7 : float) (a : Series) : float :=
  match a with
  | a0 :: a1 :: a2 :: a3 :: a4 :: a5 :: a6 :: a7 :: rest =>
      sum_blocks (r0 + a0) (r1 + a1) (r2 + a2) (r3 + a3)
                 (r4 + a4) (r5 + a5) (r6 + a6) (r7 + a7) rest
  | _ =>
      fold_left PrimFloat.add a
        (((r0 + r1) + (r2 + r3)) + ((r4 + r5) + (r6 + r7)))
  end.

(** [depth] bounds the number of nested splits; the length of the array
    is always enough, as every split yields two shorter arrays (lemma
    [pairwise_sum_depth]). *)
Fixpoint pairwise_sum (depth : nat) (a : Series) : float :=
  let n := List.length a in
  match a with
  | a0 :: a1 :: a2 :: a3 :: a4 :: a5 :: a6 :: a7 :: rest =>
      if (n <=? 128)%nat then sum_blocks a0 a1 a2 a3 a4 a5 a6 a7 rest
      else
        match depth with
        | O => 0
        | S depth' =>
            let n2 := (n / 2 - (n / 2) mod 8)%nat in
            pairwise_sum depth' (firstn n2 a)
            + pairwise_sum depth' (skipn n2 a)
        end
  | _ => fold_left PrimFloat.add a 0
  end.

(** The reduction starts from the identity of the addition. *)
Definition np_sum (a : Series) : float := 0 + pairwise_sum (List.length a) a.

(** [np.std(series)] dispatches to [series.std(ddof=0)], that is
    [nanops.nanstd]: the population standard deviation, computed in two
    passes with [ndarray.sum]. *)
Definition std (s : Series) : float :=
  let count := float_of_nat (List.length s) in
  let avg := np_sum s / count in
  let sqr := np_sum (map (fun x => (avg - x) * (avg - x)) s) in
  sqrt (sqr / count).

(** The running state of [roll_mean] (pandas/_libs/window/aggregations.pyx):
    the number of present observations in the window, their running sum
    with the two Kahan compensation terms (one for additions, one for
    removals), the number of negative observations, and the length of the
    run of equal values that ends at the last observation added. *)
Record mean_state : Type := {
  nobs : nat;
  sum_x : float;
  neg_ct : nat;
  compensation_add : float;
  compensation_remove : float;
  num_consecutive_same_value : nat;
  prev_value : float
}.

(** The set-up of a fresh window that starts at the value [first]. *)
Definition setup (first : float) : mean_state :=
  {| nobs := 0; sum_x := 0; neg_ct := 0;
     compensation_add := 0; compensation_remove := 0;
     num_consecutive_same_value := 0; prev_value := first |}.

(** [add_mean]: a missing value is skipped. *)
Definition add_mean (st : mean_state) (val : float) : mean_state :=
  if val =? val then
    let y := val - compensation_add st in
    let t := sum_x st + y in
    {| nobs := S (nobs st);
       sum_x := t;
       neg_ct := if get_sign val then S (neg_ct st) else neg_ct st;
       compensation_add := t - sum_x st - y;
       compensation_remove := compensation_remove st;
       num_consecutive_same_value :=
         if val =? prev_value st then S (num_consecutive_same_value st)
         else 1%nat;
       prev_value := val |}
  else st.

(** [remove_mean] *)
Definition remove_mean (st : mean_state) (val : float) : mean_state :=
  if val =? val then
    let y := - val - compensation_remove st in
    let t := sum_x st + y in
    {| nobs := pred (nobs st);
       sum_x := t;
       neg_ct := if get_sign val then pred (neg_ct st) else neg_ct st;
       compensation_add := compensation_add st;
       compensation_remove := t - sum_x st - y;
       num_consecutive_same_value := num_consecutive_same_value st;
       prev_value := prev_value st |}
  else st.

(** [calc_mean]: missing below [minp] observations; a window of equal
    values yields that value; a mean whose sign contradicts the signs of
    the observations is 0. *)
Definition calc_mean (minp : nat) (st : mean_state) : float :=
  if (minp <=? nobs st)%nat && (0 <? nobs st)%nat then
    let result := sum_x st / float_of_nat (nobs st) in
    if (nobs st <=? num_consecutive_same_value st)%nat then prev_value st
    else if (neg_ct st =? 0)%nat && (result <? 0) then 0
    else if (neg_ct st =? nobs st)%nat && (0 <? result) then 0
    else result
  else nan.

(** [values[a:b]] *)
Definition slice (values : Series) (a b : nat) : Series :=
  firstn (b - a) (skipn a values).

(** The bounds of the fixed window that ends at position [i]
    ([FixedWindowIndexer], closed on the right): [start[i]] and [end[i]],
    clipped to the series. *)
Definition window_start (window i : nat) : nat := (i + 1 - window)%nat.
Definition window_end (i : nat) : nat := (i + 1)%nat.

(** One turn of the loop of [roll_mean]: the first window is set up from
    scratch, as is a window that does not overlap the one before; any
    other window is obtained from the one before by removing the values
    that left and adding the values that entered. *)
Definition roll_step (values : Series) (window minp : nat)
  (acc : mean_state * Series) (i : nat) : mean_state * Series :=
  let '(st, output) := acc in
  let s := window_start window i in
  let e := window_end i in
  let st' :=
    if (i =? 0)%nat || (window_end (i - 1) <=? s)%nat then
      fold_left add_mean (slice values s e) (setup (nth s values nan))
    else
      fold_left add_mean (slice values (window_end (i - 1)) e)
        (fold_left remove_mean
           (slice values (window_start window (i - 1)) s) st)
  in (st', (output ++ [calc_mean minp st'])%list).

Definition roll_mean (values : Series) (window minp : nat) : Series :=
  snd (fold_left (roll_step values window minp)
         (seq 0 (List.length values)) (setup nan, [])).

(** [series.rolling(window).mean()]; infinite values are turned into
    [NaN] before the windows are formed, and [min_periods] defaults to
    the window size. *)
Definition rolling_mean (window : nat) (s : Series) : Series :=
  roll_mean (map (fun x => if isinf x then nan else x) s) window window.

Definition fmax (a b : float) : float := if a <? b then b else a.
Definition fmin (a b : float) : float := if b <? a then b else a.

(** [series.max()] and [series.min()]: missing values are skipped; with no
    present value the result is [NaN]. *)
Definition max (s : Series) : float :=
  match dropna s with
  | [] => nan
  | x :: r => fold_left fmax r x
  end.
Definition min (s : Series) : float :=
  match dropna s with
  | [] => nan
  | x :: r => fold_left fmin r x
  end.

End Pandas.

(** ** Response schemas (the pydantic models) *)
Module Schema.

Record AnalysisMetrics : Type := {
  price_change_absolute : option float;
  price_change_percent : option float;
  volatility : option float;
  sma_50 : option float;
  sma_200 : option float;
  recent_high : option float;
  recent_low : option float
}.

Record Insight : Type := {
  trend_direction : string;
  volatility_assessment : string;
  investment_considerations : string
}.

Record AnalysisResponse : Type := {
  analysis_symbol : string;
  metrics : AnalysisMetrics;
  insights : Insight
}.

Record HistoricalDataPoint : Type := {
  date : string;
  open : option float;
  high : option float;
  low : option float;
  close : option float;
  volume : option Z
}.

Record HistoricalDataResponse : Type := {
  historical_symbol : string;
  data : list HistoricalDataPoint
}.

Record Officer : Type := {
  name : option string;
  title : option string
}.

Record CompanyInfoResponse : Type := {
  info_symbol : string;
  company_name : option string;
  business_summary : option string;
  industry : option string;
  sector : option string;
  officers : option (list Officer)
}.

Record StockDataResponse : Type := {
  stock_symbol : string;
  market_state : option string;
  current_price : option float;
  percentage_change : option float;
  open_price : option float;
  high_price : option float;
  low_price : option float;
  stock_volume : option Z;
  previous_close : option float
}.

End Schema.

(** ** The analytics transform of [get_company_analysis] (lines 83-128) *)
Module Analytics.
Import Pandas.
Local Open Scope float_scope.

(** [round(last_price - first_price, 2)
      if not pd.isna(first_price) and not pd.isna(last_price) else None] *)
Definition price_change_absolute (first_price last_price : float)
  : option float :=
  if negb (isna first_price) && negb (isna last_price)
  then Some (round2 (last_price - first_price)) else None.

(** [round(((last_price - first_price) / first_price) * 100, 2)
      if price_change_absolute is not None and first_price != 0
      else None] *)
Definition price_change_percent (absolute : option float)
           (first_price last_price : float) : option float :=
  match absolute with
  | Some _ =>
      if negb (first_price =? 0)
      then Some (round2 (((last_price - first_price) / first_price) * 100))
      else None
  | None => None
  end.

(** [close_prices.pct_change().dropna()] *)
Definition daily_returns (fm : fill_method) (close_prices : Series) : Series :=
  dropna (pct_change fm close_prices).

(** [round(np.std(daily_returns) * np.sqrt(252) * 100, 2)
      if not daily_returns.empty else None] *)
Definition volatility (returns : Series) : option float :=
  if negb (empty returns)
  then Some (round2 (std returns * sqrt 252 * 100)) else None.

(** [round(close_prices.rolling(window=w).mean().iloc[-1], 2)
      if len(close_prices) >= w else None]
    ([iloc[-1]] is defined whenever the guard holds for [w >= 1]). *)
Definition sma (w : nat) (close_prices : Series) : option float :=
  if (w <=? List.length close_prices)%nat
  then Some (round2 (last (rolling_mean w close_prices) nan)) else None.

Definition sma_50 : Series -> option float := sma 50.
Definition sma_200 : Series -> option float := sma 200.

(** [round(close_prices.max(), 2) if not close_prices.empty else None] *)
Definition recent_high (close_prices : Series) : option float :=
  if negb (empty close_prices) then Some (round2 (max close_prices)) else None.
Definition recent_low (close_prices : Series) : option float :=
  if negb (empty close_prices) then Some (round2 (min close_prices)) else None.

(** Lines 102-113. *)
Definition trend_from_price_change (percent : option float) : string :=
  match percent with
  | Some p => if 5 <? p then "Bullish"
              else if p <? -5 then "Bearish"
              else "Neutral"
  | None => "Neutral"
  end.

Definition trend_direction (percent s50 s200 : option float) : string :=
  let trend := trend_from_price_change percent in
  match s50, s200 with
  | Some a, Some b =>
      if b <? a then
        (if negb (String.eqb trend "Bullish")
         then "Bullish (SMA crossover)" else trend)
      else if a <? b then
        (if negb (String.eqb trend "Bearish")
         then "Bearish (SMA crossover)" else trend)
      else trend
  | _, _ => trend
  end.

(** Lines 115-120. *)
Definition volatility_assessment (vol : option float) : string :=
  match vol with
  | Some v => if 30 <? v then "High"
              else if v <? 15 then "Low"
              else "Moderate"
  | None => "Moderate"
  end.

(** The truth value of an optional float: [None] and zero are false. *)
Definition truthy (x : option float) : bool :=
  match x with
  | Some v => negb (v =? 0)
  | None => false
  end.

Section Narrative.
(** How an f-string renders a float. *)
Variable float_str : float -> string.

Definition or_na (x : option float) : string :=
  match x with
  | Some v => if truthy x then float_str v else "N/A"
  | None => "N/A"
  end.

(** Lines 122-128. *)
Definition investment_considerations
           (trend assessment : string) (high low : option float) : string :=
  let bullish := PyStr.contains "Bullish" trend in
  ("The stock exhibits a " ++ PyStr.lower trend ++ " trend with "
    ++ PyStr.lower assessment ++ " volatility. "
    ++ "Consider monitoring for " ++ (if bullish then "entry" else "exit")
    ++ " points near recent " ++ (if bullish then "highs" else "lows") ++ " "
    ++ "(" ++ or_na high ++ " or " ++ or_na low ++ "). "
    ++ (if String.eqb assessment "Low"
        then "Long-term investors may find this stable"
        else if String.eqb assessment "High"
        then "Short-term traders may capitalize on price swings"
        else "Balance risk with potential returns") ++ ". "
    ++ "Always consult a financial advisor.")%string.

(** The metrics and insights computed from a close column whose first
    and last entries are [first_price] and [last_price]. *)
Definition analyse (fm : fill_method) (close_prices : Series)
           (first_price last_price : float)
  : Schema.AnalysisMetrics * Schema.Insight :=
  let absolute := price_change_absolute first_price last_price in
  let percent := price_change_percent absolute first_price last_price in
  let vol := volatility (daily_returns fm close_prices) in
  let s50 := sma_50 close_prices in
  let s200 := sma_200 close_prices in
  let high := recent_high close_prices in
  let low := recent_low close_prices in
  let trend := trend_direction percent s50 s200 in
  let assessment := volatility_assessment vol in
  ({| Schema.price_change_absolute := absolute;
      Schema.price_change_percent := percent;
      Schema.volatility := vol;
      Schema.sma_50 := s50;
      Schema.sma_200 := s200;
      Schema.recent_high := high;
      Schema.recent_low := low |},
   {| Schema.trend_direction := trend;
      Schema.volatility_assessment := assessment;
      Schema.investment_considerations :=
        investment_considerations trend assessment high low |}).
End Narrative.

(** [close_prices.iloc[0]] and [close_prices.iloc[-1]]; [None] stands for
    [IndexError]. *)
Definition iloc_first (s : Series) : option float := hd_error s.
Definition iloc_last (s : Series) : option float :=
  match s with
  | [] => None
  | _ :: _ => Some (last s nan)
  end.

End Analytics.

(** ** Exceptions, provider calls and the handler monad *)
Module Http.

(** The exceptions that occur in the handlers.  [ProviderError] is any
    exception raised inside the data provider's client library. *)
Inductive exception : Type :=
| HTTPException (status_code : Z) (detail : string)
| ValueError (message : string)
| IndexError (message : string)
| TypeError (message : string)
| OverflowError (message : string)
| ProviderError (message : string).

(** [str(e)].  For [HTTPException] this is starlette's [__str__]:
    [f"{self.status_code}: {self.detail}"]. *)
Definition str (e : exception) : string :=
  match e with
  | HTTPException status_code detail =>
      PyStr.str_of_Z status_code ++ ": " ++ detail
  | ValueError m | IndexError m | TypeError m | OverflowError m
  | ProviderError m => m
  end.

(** A call that reaches the external data provider. *)
Inductive call : Type :=
| HistoryCall (symbol start end_ : string)
| InfoCall (symbol : string).

Inductive result (A : Type) : Type :=
| Ok (a : A)
| Raise (e : exception).
Arguments Ok {A} a.
Arguments Raise {A} e.

(** A handler body: it runs on the log of provider calls made so far and
    returns normally or raises. *)
Definition M (A : Type) : Type := list call -> result A * list call.

Definition ret {A : Type} (a : A) : M A := fun log => (Ok a, log).

Definition bind {A B : Type} (m : M A) (k : A -> M B) : M B :=
  fun log =>
    match m log with
    | (Ok a, log') => k a log'
    | (Raise e, log') => (Raise e, log')
    end.

Definition raise {A : Type} (e : exception) : M A := fun log => (Raise e, log).

(** [try: body  except Exception as e: handler(e)] *)
Definition try_except {A : Type} (body : M A) (handler : exception -> M A)
  : M A :=
  fun log =>
    match body log with
    | (Ok a, log') => (Ok a, log')
    | (Raise e, log') => handler e log'
    end.

(** [returns P m]: whenever the handler body [m] returns normally, its
    value satisfies [P]. *)
Definition returns {A : Type} (P : A -> Prop) (m : M A) : Prop :=
  forall log a log', m log = (Ok a, log') -> P a.

(** What the client receives: the response model with status 200, or the
    JSON object [{"error": detail}] that [custom_http_exception_handler]
    builds from an [HTTPException]. *)
Inductive response (B : Type) : Type :=
| Success (body : B)
| JSONError (status_code : Z) (error : string).
Arguments Success {B} body.
Arguments JSONError {B} status_code error.

Definition status {B : Type} (r : response B) : Z :=
  match r with
  | Success _ => 200
  | JSONError status_code _ => status_code
  end.

(** Running a handler on a fresh request.  An exception other than
    [HTTPException] would reach the framework's default handler. *)
Definition serve {B : Type} (handler : M B) : response B * list call :=
  match handler [] with
  | (Ok body, log) => (Success body, log)
  | (Raise (HTTPException status_code detail), log) =>
      (JSONError status_code detail, log)
  | (Raise _, log) => (JSONError 500 "Internal Server Error", log)
  end.

End Http.

(** ** What the provider returns *)
Module Provider.

(** A cell of the [Volume] column: the column is [int64] (an integer of
    at most 64 bits), or [float64] when the provider left gaps in it. *)
Inductive VolumeCell : Type :=
| Int64 (n : Z)
| Float64 (x : float).

(** One row of the frame returned by [ticker.history]. *)
Record Row : Type := {
  index : Strptime.date;
  Open : float;
  High : float;
  Low : float;
  Close : float;
  Volume : VolumeCell
}.

Definition DataFrame : Type := list Row.

Record OfficerEntry : Type := {
  officer_name : option string;
  officer_title : option string
}.

(** The value under ['companyOfficers'] in [ticker.info]. *)
Inductive CompanyOfficers : Type :=
| OfficersAbsent
| OfficersNone
| OfficersList (entries : list OfficerEntry).

(** The keys of [ticker.info] that the services read; [None] is an
    absent key (or a [None] value). *)
Record Info : Type := {
  longName : option string;
  longBusinessSummary : option string;
  industry : option string;
  sector : option string;
  companyOfficers : CompanyOfficers;
  marketState : option string;
  regularMarketPrice : option float;
  regularMarketPreviousClose : option float;
  regularMarketOpen : option float;
  regularMarketDayHigh : option float;
  regularMarketDayLow : option float;
  regularMarketVolume : option Z
}.

End Provider.

(** ** The four request handlers *)
Module Services.
Import Http Provider.

Notation "x <- c1 ;; c2" := (bind c1 (fun x => c2))
  (at level 61, c1 at next level, right associativity).

Record AnalysisRequest : Type := {
  symbol : string;
  start_date : string;
  end_date : string
}.

(** The historical-data request has the same three fields. *)
Definition HistoricalDataRequest : Type := AnalysisRequest.

(** [n] in decimal, left-padded with zeros to [width] characters. *)
Fixpoint zeros (n : nat) : string :=
  match n with
  | O => EmptyString
  | S k => String "0" (zeros k)
  end.
Definition zfill (width : nat) (n : Z) : string :=
  let s := PyStr.str_of_Z n in
  zeros (width - String.length s) ++ s.

(** [index.strftime("%Y-%m-%d")]: the C library writes the year without
    padding, the month and the day on two digits. *)
Definition strftime (d : Strptime.date) : string :=
  let '(y, m, dd) := d in
  PyStr.str_of_Z y ++ "-" ++ zfill 2 m ++ "-" ++ zfill 2 dd.

(** [iterrows()] yields each row as one [float64] series: an [int64]
    volume is converted to the nearest [float64] (ties to even). *)
Definition float_of_int (n : Z) : float :=
  SF2Prim (SpecFloat.binary_normalize prec emax n 0 false).
Definition row_volume (row : Row) : float :=
  match Volume row with
  | Int64 n => float_of_int n
  | Float64 x => x
  end.

(** [int(x)] on a float: truncation towards zero; an infinity raises
    [OverflowError] and [NaN] raises [ValueError]. *)
Definition int_of_float (x : float) : result Z :=
  match Prim2SF x with
  | SpecFloat.S754_zero _ => Ok 0
  | SpecFloat.S754_finite sign m e =>
      let magnitude :=
        if 0 <=? e then Z.shiftl (Zpos m) e else Z.shiftr (Zpos m) (- e) in
      Ok (if sign then - magnitude else magnitude)
  | SpecFloat.S754_infinity _ =>
      Raise (OverflowError "cannot convert float infinity to integer")
  | SpecFloat.S754_nan =>
      Raise (ValueError "cannot convert float NaN to integer")
  end.

Section WithProvider.
(** The provider: what [yf.Ticker(symbol).history(start=..., end=...)]
    and [yf.Ticker(symbol).info] return or raise. *)
Variable history : string -> string -> string -> result DataFrame.
Variable info : string -> result Info.
(** Library default of [pct_change]'s [fill_method]. *)
Variable fill : Pandas.fill_method.
(** How an f-string renders a float, and the builtin [round(x, 2)] on
    a Python float. *)
Variable float_str : float -> string.
Variable py_round2 : float -> float.

Definition ticker_history (symbol start end_ : string) : M DataFrame :=
  fun log => (history symbol start end_,
              (log ++ [HistoryCall symbol start end_])%list).

Definition ticker_info (symbol : string) : M Info :=
  fun log => (info symbol, (log ++ [InfoCall symbol])%list).

Definition strptime (date_str : string) : M Strptime.date :=
  match Strptime.strptime date_str with
  | Some d => ret d
  | None => raise (ValueError ("time data '" ++ date_str
                                 ++ "' does not match format '%Y-%m-%d'"))
  end.

Definition iloc (x : option float) : M float :=
  match x with
  | Some v => ret v
  | None => raise (IndexError "single positional indexer is out-of-bounds")
  end.

(** company_analysis_api1.py, lines 54-154. *)
Definition get_company_analysis (request : AnalysisRequest)
  : M Schema.AnalysisResponse :=
  if String.eqb (symbol request) "" || negb (validate_symbol (symbol request))
  then raise (HTTPException 400 "Invalid company symbol")
  else if negb (validate_date (start_date request))
          || negb (validate_date (end_date request))
  then raise (HTTPException 400 "Invalid date format. Use YYYY-MM-DD")
  else
    try_except
      (start <- strptime (start_date request) ;;
       end_ <- strptime (end_date request) ;;
       if Strptime.date_ltb end_ start
       then raise (HTTPException 400 "End date cannot be before start date")
       else
         hist_data <- ticker_history (symbol request)
                        (start_date request) (end_date request) ;;
         if Pandas.empty hist_data
         then raise (HTTPException 404
                       ("No data found for " ++ symbol request
                          ++ " in the specified date range"))
         else
           let close_prices := map Close hist_data in
           first_price <- iloc (Analytics.iloc_first close_prices) ;;
           last_price <- iloc (Analytics.iloc_last close_prices) ;;
           let '(m, i) := Analytics.analyse float_str fill close_prices
                            first_price last_price in
           ret {| Schema.analysis_symbol := PyStr.upper (symbol request);
                  Schema.metrics := m;
                  Schema.insights := i |})
      (fun e =>
         if PyStr.contains "404" (str e)
         then raise (HTTPException 404
                       ("Company symbol " ++ symbol request ++ " not found"))
         else raise (HTTPException 500
                       ("Error performing analysis: " ++ str e))).

Definition rounded (x : float) : option float :=
  if negb (Pandas.isna x) then Some (Pandas.round2 x) else None.

(** [int(row["Volume"]) if not pd.isna(row["Volume"]) else None] *)
Definition volume_of (x : float) : result (option Z) :=
  if negb (Pandas.isna x) then
    match int_of_float x with
    | Ok n => Ok (Some n)
    | Raise e => Raise e
    end
  else Ok None.

(** One [HistoricalDataPoint(...)] of the list comprehension. *)
Definition data_point (row : Row) : result Schema.HistoricalDataPoint :=
  match volume_of (row_volume row) with
  | Ok v =>
      Ok {| Schema.date := strftime (index row);
            Schema.open := rounded (Open row);
            Schema.high := rounded (High row);
            Schema.low := rounded (Low row);
            Schema.close := rounded (Close row);
            Schema.volume := v |}
  | Raise e => Raise e
  end.

(** The list comprehension over [hist_data.iterrows()]: the rows are
    converted in order and the first exception ends the loop. *)
Fixpoint data_points (rows : DataFrame)
  : result (list Schema.HistoricalDataPoint) :=
  match rows with
  | [] => Ok []
  | row :: rest =>
      match data_point row with
      | Raise e => Raise e
      | Ok point =>
          match data_points rest with
          | Raise e => Raise e
          | Ok points => Ok (point :: points)
          end
      end
  end.

(** A computation that makes no provider call. *)
Definition lift {A : Type} (r : result A) : M A := fun log => (r, log).

(** historical_stock_data_api1.py, lines 46-97. *)
Definition get_historical_stock_data (request : HistoricalDataRequest)
  : M Schema.HistoricalDataResponse :=
  if String.eqb (symbol request) "" || negb (validate_symbol (symbol request))
  then raise (HTTPException 400 "Invalid company symbol")
  else if negb (validate_date (start_date request))
          || negb (validate_date (end_date request))
  then raise (HTTPException 400 "Invalid date format. Use YYYY-MM-DD")
  else
    try_except
      (start <- strptime (start_date request) ;;
       end_ <- strptime (end_date request) ;;
       if Strptime.date_ltb end_ start
       then raise (HTTPException 400 "End date cannot be before start date")
       else
         hist_data <- ticker_history (symbol request)
                        (start_date request) (end_date request) ;;
         if Pandas.empty hist_data
         then raise (HTTPException 404
                       ("No data found for " ++ symbol request
                          ++ " in the specified date range"))
         else
           points <- lift (data_points hist_data) ;;
           ret {| Schema.historical_symbol := PyStr.upper (symbol request);
                  Schema.data := points |})
      (fun e =>
         if PyStr.contains "404" (str e)
         then raise (HTTPException 404
                       ("Company symbol " ++ symbol request ++ " not found"))
         else raise (HTTPException 500
                       ("Error retrieving historical data: " ++ str e))).

(** The inner [try] of [get_company_info]: only [KeyError] and
    [TypeError] are caught there. *)
Definition read_officers (symbol : string) : M (list Schema.Officer) :=
  fun log =>
    match
      (i <- ticker_info symbol ;;
       match companyOfficers i with
       | OfficersAbsent => ret []
       | OfficersNone => raise (TypeError "'NoneType' object is not iterable")
       | OfficersList entries =>
           ret (map (fun o => {| Schema.name := officer_name o;
                                 Schema.title := officer_title o |})
                    entries)
       end) log
    with
    | (Raise (TypeError _), log') => (Ok [], log')
    | other => other
    end.

(** company_info_api1.py, lines 34-72. *)
Definition get_company_info (symbol : string) : M Schema.CompanyInfoResponse :=
  if String.eqb symbol "" || negb (validate_symbol symbol)
  then raise (HTTPException 400 "Invalid company symbol")
  else
    try_except
      (i <- ticker_info symbol ;;
       officers <- read_officers symbol ;;
       ret {| Schema.info_symbol := PyStr.upper symbol;
              Schema.company_name := longName i;
              Schema.business_summary := longBusinessSummary i;
              Schema.industry := industry i;
              Schema.sector := sector i;
              Schema.officers := Some officers |})
      (fun e =>
         if PyStr.contains "404" (str e)
         then raise (HTTPException 404
                       ("Company symbol " ++ symbol ++ " not found"))
         else raise (HTTPException 500
                       ("Error retrieving company data: " ++ str e))).

(** Lines 43-47 of stock_data_api1.py. *)
Definition percentage_change (current_price previous_close : option float)
  : option float :=
  match current_price, previous_close with
  | Some c, Some p =>
      if negb (p =? 0)%float then Some (((c - p) / p) * 100)%float else None
  | _, _ => None
  end.

(** stock_data_api1.py, lines 30-67. *)
Definition get_stock_data (symbol : string) : M Schema.StockDataResponse :=
  if String.eqb symbol "" || negb (validate_symbol symbol)
  then raise (HTTPException 400 "Invalid company symbol")
  else
    try_except
      (i <- ticker_info symbol ;;
       let current_price := regularMarketPrice i in
       let previous_close := regularMarketPreviousClose i in
       let change := percentage_change current_price previous_close in
       ret {| Schema.stock_symbol := PyStr.upper symbol;
              Schema.market_state := marketState i;
              Schema.current_price := current_price;
              Schema.percentage_change := option_map py_round2 change;
              Schema.open_price := regularMarketOpen i;
              Schema.high_price := regularMarketDayHigh i;
              Schema.low_price := regularMarketDayLow i;
              Schema.stock_volume := regularMarketVolume i;
              Schema.previous_close := previous_close |})
      (fun e =>
         if PyStr.contains "404" (str e)
         then raise (HTTPException 404
                       ("Company symbol " ++ symbol ++ " not found"))
         else raise (HTTPException 500
                       ("Error retrieving stock data: " ++ str e))).

End WithProvider.

End Services.

(** ** The analysis of a non-empty close column, as the handler runs it *)
Definition metrics_of (float_str : float -> string) (fill : Pandas.fill_method)
           (close_prices : Pandas.Series) : Schema.AnalysisMetrics :=
  fst (Analytics.analyse float_str fill close_prices
         (hd nan close_prices) (last close_prices nan)).

Definition insights_of (float_str : float -> string) (fill : Pandas.fill_method)
           (close_prices : Pandas.Series) : Schema.Insight :=
  snd (Analytics.analyse float_str fill close_prices
         (hd nan close_prices) (last close_prices nan)).

(** ** The notions the specification is written in *)
Module Spec.

(** *** Ticker symbols *)

Definition alphanumeric (s : string) : Prop :=
  Forall (fun c => PyStr.isalnum_char c = true) (PyStr.chars s).

(** A segment of a dotted ticker: alphanumeric and not empty. *)
Definition segment (g : string) : Prop := g <> EmptyString /\ alphanumeric g.

Definition dot_separated (s : string) : Prop :=
  exists segments, s = PyStr.join "." segments /\ Forall segment segments.

(** *** Dates *)

Definition digit_char (n : Z) : ascii := ascii_of_nat (48 + Z.to_nat n).

Definition one_digit (n : Z) : string := String (digit_char n) EmptyString.
Definition two_digits (n : Z) : string :=
  String (digit_char (n / 10)) (one_digit (n mod 10)).
Definition four_digits (n : Z) : string :=
  String (digit_char (n / 1000))
    (String (digit_char (n / 100 mod 10)) (two_digits (n mod 100))).

(** The zero-padded form [YYYY-MM-DD] of a date. *)
Definition padded_form (y m d : Z) : string :=
  four_digits y ++ "-" ++ two_digits m ++ "-" ++ two_digits d.

(** Is [s] ten characters [dddd-dd-dd]? *)
Definition matches_YYYY_MM_DD (s : string) : bool :=
  match PyStr.chars s with
  | [y1; y2; y3; y4; h1; m1; m2; h2; d1; d2] =>
      forallb PyStr.isdigit_char [y1; y2; y3; y4; m1; m2; d1; d2]
      && Ascii.eqb h1 "-" && Ascii.eqb h2 "-"
  | _ => false
  end.

Definition leap_year (y : Z) : bool :=
  (y mod 4 =? 0) && (negb (y mod 100 =? 0) || (y mod 400 =? 0)).

Definition last_day (y m : Z) : Z :=
  match m with
  | 1 | 3 | 5 | 7 | 8 | 10 | 12 => 31
  | 4 | 6 | 9 | 11 => 30
  | 2 => if leap_year y then 29 else 28
  | _ => 0
  end.

(** A date of the calendar, years 1 to 9999. *)
Definition calendar_date (y m d : Z) : Prop :=
  1 <= y <= 9999 /\ 1 <= m <= 12 /\ 1 <= d <= last_day y m.

(** The ways a month and a day below 10 may be written: with the leading
    zero, without it, and for the day with a blank in its place. *)
Definition month_texts (m : Z) : list string :=
  if m <? 10 then [two_digits m; one_digit m] else [two_digits m].
Definition day_texts (d : Z) : list string :=
  if d <? 10 then [two_digits d; one_digit d; String " " (one_digit d)]
  else [two_digits d].

Definition date_texts (y m d : Z) : list string :=
  flat_map
    (fun ms => map (fun ds => four_digits y ++ "-" ++ ms ++ "-" ++ ds)
                   (day_texts d))
    (month_texts m).

(** *** Metrics *)
Import Pandas.
Local Open Scope float_scope.


(** The rational number a finite float stands for, and the arithmetic
    mean of finite values computed without any rounding. *)
Definition exact (x : float) : Q :=
  match Prim2SF x with
  | SpecFloat.S754_finite sign m e =>
      ((if sign then -1 else 1) * inject_Z (Zpos m) * Qpower 2 e)%Q
  | _ => 0%Q
  end.


(** Percent change computed from the (rounded) absolute change. *)
Definition percent_from_absolute (absolute : option float) (first_close : float)
  : option float :=
  match absolute with
  | Some a => if first_close =? 0 then None
              else Some (round2 (a / first_close * 100))
  | None => None
  end.

(** Percent change computed from the two endpoint closes. *)
Definition percent_from_closes (absolute : option float)
           (first_close last_close : float) : option float :=
  match absolute with
  | Some _ => if first_close =? 0 then None
              else Some (round2 ((last_close - first_close) / first_close * 100))
  | None => None
  end.

(** The relative change from [prev] to [cur], as pandas evaluates
    [(cur - prev) / prev]. *)
Definition relative_change (prev cur : float) : float := cur / prev - 1.

Fixpoint pairwise_changes (closes : Series) : Series :=
  match closes with
  | prev :: (cur :: _) as rest => relative_change prev cur :: pairwise_changes rest
  | _ => []
  end.

(** Daily returns: the pairwise changes, the missing ones dropped. *)
Definition daily_returns (closes : Series) : Series :=
  filter (fun r => negb (isna r)) (pairwise_changes closes).

Definition volatility (closes : Series) : option float :=
  match daily_returns closes with
  | [] => None
  | (_ :: _) as returns => Some (round2 (std returns * sqrt 252 * 100))
  end.

(** The closes the daily returns are taken from: under forward filling
    a missing close is replaced by the last present close before it. *)
Definition filled (fm : fill_method) (closes : Series) : Series :=
  match fm with
  | Pad => ffill closes
  | NoFill => closes
  end.

(** A metric is a finite number or the missing marker [None]. *)
Definition finite (x : float) : bool := negb (isna x) && negb (isinf x).
Definition finite_or_missing (x : option float) : bool :=
  match x with
  | Some v => finite v
  | None => true
  end.

Definition all_finite_or_missing (m : Schema.AnalysisMetrics) : bool :=
  forallb finite_or_missing
    [Schema.price_change_absolute m; Schema.price_change_percent m;
     Schema.volatility m; Schema.sma_50 m; Schema.sma_200 m;
     Schema.recent_high m; Schema.recent_low m].

End Spec.

(** ** Concrete inputs used in examples *)
Module Examples.
Import Http Provider Services.
Local Open Scope float_scope.

(** Rendering of floats in the narrative (immaterial to the metrics). *)
Definition plain (x : float) : string := "".

(** A frame row whose prices all equal [c]. *)
Definition row_of (c : float) : Row :=
  {| index := (2024, 1, 2)%Z; Open := c; High := c; Low := c; Close := c;
     Volume := Provider.Int64 1000 |}.

(** A provider that returns the given closes for every request. *)
Definition history_of (closes : list float)
  : string -> string -> string -> result DataFrame :=
  fun _ _ _ => Ok (map row_of closes).

Definition no_info : string -> result Info :=
  fun _ => Raise (ProviderError "unavailable").

Definition request_ok : AnalysisRequest :=
  {| symbol := "AAPL"; start_date := "2024-01-01"; end_date := "2024-02-01" |}.

Definition request_reversed : AnalysisRequest :=
  {| symbol := "AAPL"; start_date := "2024-02-01"; end_date := "2024-01-01" |}.

(** A 300-point rising series: 1, 2, ..., 300. *)
Definition rising_300 : list float := map Pandas.float_of_nat (seq 1 300).

(** Two closes 0.004 apart. *)
Definition small_move : list float := [10; 10.004].

(** A series that starts at zero. *)
Definition from_zero : list float := [0; 1].

(** A series with a gap. *)
Definition with_gap : list float := [1; nan; 2].


End Examples.

(** ** Notions for stating what the handlers raise and whom they call *)
Module HandlerLogic.
Import Http.

(** [raises P m]: whenever the handler body [m] raises, the exception
    satisfies [P]. *)
Definition raises {A : Type} (P : exception -> Prop) (m : M A) : Prop :=
  forall log e log', m log = (Raise e, log') -> P e.

(** An [HTTPException] carrying one of the three error codes the services
    document. *)
Definition documented_error (e : exception) : Prop :=
  exists status_code detail,
    e = HTTPException status_code detail
    /\ (status_code = 400 \/ status_code = 404 \/ status_code = 500).

(** [s.endswith(suffix)]. *)
Fixpoint endswith (suffix s : string) : bool :=
  String.eqb s suffix ||
  match s with
  | EmptyString => false
  | String _ r => endswith suffix r
  end.

(** The five labels [trend_direction] can take. *)
Definition trend_labels : list string :=
  ["Neutral"; "Bullish"; "Bearish";
   "Bullish (SMA crossover)"; "Bearish (SMA crossover)"].

(** The integers from [lo] to [hi]. *)
Definition Z_range (lo hi : Z) : list Z :=
  map (fun k => lo + Z.of_nat k) (seq 0 (Z.to_nat (hi - lo + 1))).

(** [a <= b] on present floats. *)
Definition fle (a b : float) : Prop := (b <? a)%float = false.

(** The number of present values of a series. *)
Definition count_present (s : Pandas.Series) : nat :=
  List.length (filter (fun x => negb (Pandas.isna x)) s).


(** Does a request pass the checks made before the provider is called:
    symbol syntax, both dates parsed, end not before start? *)
Definition passes_validation (request : Services.AnalysisRequest) : bool :=
  validate_symbol (Services.symbol request)
  && match Strptime.strptime (Services.start_date request),
           Strptime.strptime (Services.end_date request) with
     | Some start, Some end_ => negb (Strptime.date_ltb end_ start)
     | _, _ => false
     end.

(** The officers of a response, read off the provider's entry. *)
Definition officers_of (entry : Provider.CompanyOfficers)
  : list Schema.Officer :=
  match entry with
  | Provider.OfficersList entries =>
      map (fun o => {| Schema.name := Provider.officer_name o;
                       Schema.title := Provider.officer_title o |}) entries
  | Provider.OfficersAbsent | Provider.OfficersNone => []
  end.

End HandlerLogic.

(** ** More concrete inputs *)
Module MoreExamples.
Import Http Provider Services.
Local Open Scope float_scope.

(** A series that starts at 300, falls to 1 and climbs back to 300. *)
Definition dip_and_rise : list float := 300 :: Examples.rising_300.

(** Seventy-one closes with one gap among the last fifty. *)
Definition gap_in_window : list float :=
  (repeat 1 30 ++ [nan] ++ repeat 2 40)%list.

Definition request_bad_symbol : AnalysisRequest :=
  {| symbol := "BRK B"; start_date := "2024-01-01"; end_date := "2024-02-01" |}.

Definition request_bad_date : AnalysisRequest :=
  {| symbol := "AAPL"; start_date := "2024-02-30"; end_date := "2024-03-01" |}.

(** The same day written in two ways. *)
Definition request_same_day : AnalysisRequest :=
  {| symbol := "AAPL"; start_date := "2024-1-5"; end_date := "2024-01-05" |}.

Definition failing_history (message : string)
  : string -> string -> string -> result DataFrame :=
  fun _ _ _ => Raise (ProviderError message).

(** A quote whose previous close is zero, with a null list of officers. *)
Definition sample_info : Info :=
  {| longName := Some "Apple Inc."%string;
     longBusinessSummary := None;
     industry := Some "Consumer Electronics"%string;
     sector := Some "Technology"%string;
     companyOfficers := OfficersNone;
     marketState := Some "REGULAR"%string;
     regularMarketPrice := Some 10;
     regularMarketPreviousClose := Some 0;
     regularMarketOpen := Some 9.5;
     regularMarketDayHigh := Some 10.5;
     regularMarketDayLow := Some 9;
     regularMarketVolume := Some 1000%Z |}.

Definition info_of (i : Info) : string -> result Info := fun _ => Ok i.

End MoreExamples.

(* ===================================================================== *)
(** * Part II: properties                                                 *)
(* ===================================================================== *)

(** ** The validators on concrete inputs *)
Example validate_symbol_ex1 : validate_symbol "BRK.B" = true.
Proof. reflexivity. Qed.
Example validate_symbol_ex2 : validate_symbol "BRK." = false.
Proof. reflexivity. Qed.
Example validate_date_ex1 : validate_date "2024-02-29" = true.
Proof. reflexivity. Qed.
Example validate_date_ex2 : validate_date "2024-02-30" = false.
Proof. reflexivity. Qed.
Example validate_date_ex3 : validate_date "2024-1-5" = true.
Proof. reflexivity. Qed.
Example validate_date_ex4 : validate_date "2024-01-311" = false.
Proof. reflexivity. Qed.
Example validate_date_ex5 : validate_date "2024-01- 5" = true.
Proof. reflexivity. Qed.
Example str_of_Z_ex : PyStr.str_of_Z 404 = "404".
Proof. reflexivity. Qed.

(** ** Strings *)
Module PyStrFacts.
Import PyStr.

Ltac each_char c :=
  destruct c as [[] [] [] [] [] [] [] []].

Lemma all_chars_Forall (p : ascii -> bool) (s : string) :
  all_chars p s = true <-> Forall (fun c => p c = true) (chars s).
Proof.
  induction s as [|a s IH]; simpl.
  - split; [constructor | reflexivity].
  - rewrite andb_true_iff, IH. split.
    + intros [Ha Hs]. constructor; assumption.
    + intros H. inversion H; subst. split; assumption.
Qed.

Lemma isalnum_iff (s : string) :
  isalnum s = true <-> s <> EmptyString /\ Spec.alphanumeric s.
Proof.
  unfold Spec.alphanumeric. rewrite <- all_chars_Forall.
  destruct s as [|a s]; unfold isalnum.
  - split; [discriminate | intros [H _]; congruence].
  - split; [intros H; split; [discriminate | exact H] | intros [_ H]; exact H].
Qed.

Lemma blank_or_punct_not_alnum (c : ascii) :
  isspace_char c || ispunct_char c = true -> isalnum_char c = false.
Proof. each_char c; vm_compute; congruence. Qed.

Lemma alnum_has_no_dot (s : string) :
  Spec.alphanumeric s -> has_char "." s = false.
Proof.
  unfold Spec.alphanumeric.
  induction s as [|a s IH]; simpl; intros H; [reflexivity|].
  inversion H as [|x l Ha Hs]; subst.
  rewrite (IH Hs), orb_false_r.
  destruct (Ascii.eqb_spec a "."); [subst; discriminate Ha | reflexivity].
Qed.

Lemma split_not_nil (sep : ascii) (s : string) : split sep s <> [].
Proof.
  destruct s as [|a s]; simpl; [discriminate|].
  destruct (Ascii.eqb a sep); [discriminate|].
  destruct (split sep s); discriminate.
Qed.

Lemma join_cons (sep : ascii) (p : string) (rest : list string) :
  rest <> [] -> join sep (p :: rest) = p ++ String sep (join sep rest).
Proof. destruct rest; [congruence | reflexivity]. Qed.

Lemma join_split (sep : ascii) (s : string) : join sep (split sep s) = s.
Proof.
  induction s as [|a s IH]; [reflexivity|].
  simpl. destruct (Ascii.eqb_spec a sep) as [->|Hne].
  - rewrite join_cons by apply split_not_nil. simpl. now rewrite IH.
  - pose proof (split_not_nil sep s) as Hnil.
    destruct (split sep s) as [|p ps]; [congruence|].
    destruct ps as [|q qs].
    + simpl in *. now rewrite IH.
    + change (join sep (String a p :: q :: qs))
        with (String a (join sep (p :: q :: qs))).
      now rewrite IH.
Qed.

Lemma split_no_sep (sep : ascii) (s : string) :
  has_char sep s = false -> split sep s = [s].
Proof.
  induction s as [|a s IH]; simpl; [reflexivity|].
  intros H. apply orb_false_iff in H as [Ha Hs].
  rewrite Ha, (IH Hs). reflexivity.
Qed.

Lemma split_app_sep (sep : ascii) (p rest : string) :
  has_char sep p = false ->
  split sep (p ++ String sep rest) = p :: split sep rest.
Proof.
  induction p as [|a p IH]; simpl; intros H.
  - now rewrite Ascii.eqb_refl.
  - apply orb_false_iff in H as [Ha Hp].
    rewrite Ha, (IH Hp). reflexivity.
Qed.

Lemma split_join (sep : ascii) (pieces : list string) :
  pieces <> [] ->
  Forall (fun p => has_char sep p = false) pieces ->
  split sep (join sep pieces) = pieces.
Proof.
  induction pieces as [|p rest IH]; intros Hne Hall; [congruence|].
  inversion Hall as [|x l Hp Hrest]; subst.
  destruct rest as [|q rest'].
  - simpl. now apply split_no_sep.
  - rewrite join_cons by discriminate.
    rewrite split_app_sep by assumption.
    rewrite IH; [reflexivity | discriminate | assumption].
Qed.

Lemma has_char_app_sep (sep : ascii) (p rest : string) :
  has_char sep (p ++ String sep rest) = true.
Proof.
  induction p as [|a p IH]; simpl.
  - now rewrite Ascii.eqb_refl.
  - rewrite IH. apply orb_true_r.
Qed.

(** A character other than the separator lies in one of the pieces. *)
Lemma char_in_piece (sep c : ascii) (s : string) :
  In c (chars s) -> c <> sep ->
  exists piece, In piece (split sep s) /\ In c (chars piece).
Proof.
  induction s as [|a s IH]; simpl; intros Hin Hne; [contradiction|].
  destruct Hin as [->|Hin].
  - destruct (Ascii.eqb_spec c sep) as [|_]; [contradiction|].
    destruct (split sep s) as [|p ps].
    + exists (String c EmptyString). simpl. auto.
    + exists (String c p). simpl. auto.
  - destruct (IH Hin Hne) as (piece & Hp & Hc).
    destruct (Ascii.eqb a sep).
    + exists piece. simpl. auto.
    + destruct (split sep s) as [|p ps]; [contradiction|].
      destruct Hp as [<-|Hp].
      * exists (String a p). simpl. auto.
      * exists piece. simpl. auto.
Qed.

Lemma isalnum_chars (s : string) (c : ascii) :
  isalnum s = true -> In c (chars s) -> isalnum_char c = true.
Proof.
  intros H Hin. apply isalnum_iff in H as [_ H].
  unfold Spec.alphanumeric in H. rewrite Forall_forall in H. now apply H.
Qed.

End PyStrFacts.

(** ** [validate_symbol] *)
Section ValidateSymbol.
Import PyStr PyStrFacts.

Lemma validate_symbol_sound (s : string) :
  validate_symbol s = true ->
  s <> EmptyString /\ (Spec.alphanumeric s \/ Spec.dot_separated s).
Proof.
  unfold validate_symbol. intros H.
  apply orb_true_iff in H as [H|H].
  - apply isalnum_iff in H as [Hne Ha]. auto.
  - apply andb_true_iff in H as [Hdot Hall].
    split.
    + intros ->. discriminate Hdot.
    + right. exists (split "." s). split.
      * symmetry. apply join_split.
      * rewrite forallb_forall in Hall. apply Forall_forall.
        intros g Hg. apply isalnum_iff. now apply Hall.
Qed.

Lemma validate_symbol_complete (s : string) :
  s <> EmptyString -> Spec.alphanumeric s \/ Spec.dot_separated s ->
  validate_symbol s = true.
Proof.
  unfold validate_symbol. intros Hne [Ha|(segs & -> & Hsegs)].
  - apply orb_true_iff. left. apply isalnum_iff. auto.
  - destruct segs as [|g [|g' rest]].
    + exfalso. apply Hne. reflexivity.
    + inversion Hsegs; subst. apply orb_true_iff. left.
      simpl. now apply isalnum_iff.
    + apply orb_true_iff. right. apply andb_true_iff. split.
      * rewrite join_cons by discriminate. apply has_char_app_sep.
      * rewrite split_join; [| discriminate |].
        -- apply forallb_forall. rewrite Forall_forall in Hsegs.
           intros x Hx. apply isalnum_iff. now apply Hsegs.
        -- eapply Forall_impl; [| exact Hsegs].
           intros x [_ Hx]. now apply alnum_has_no_dot.
Qed.

Lemma validate_symbol_rejects (s : string) (c : ascii) :
  In c (chars s) -> isalnum_char c = false -> c <> "."%char ->
  validate_symbol s = false.
Proof.
  intros Hin Hc Hdot. unfold validate_symbol.
  apply orb_false_iff. split.
  - destruct (isalnum s) eqn:E; [|reflexivity].
    rewrite (isalnum_chars s c E Hin) in Hc. discriminate.
  - apply andb_false_iff. right.
    destruct (char_in_piece "." c s Hin Hdot) as (piece & Hp & Hcp).
    destruct (forallb isalnum (split "." s)) eqn:E; [|reflexivity].
    rewrite forallb_forall in E.
    rewrite (isalnum_chars piece c (E piece Hp) Hcp) in Hc. discriminate.
Qed.

(** C9: [validate_symbol s] is true exactly when [s] is not empty and is
    either alphanumeric throughout or a dot-separated sequence of
    (non-empty) alphanumeric segments; a string that contains white space,
    or punctuation other than the dot, is rejected. *)
Theorem validate_symbol_spec :
  (forall s, validate_symbol s = true <->
             s <> EmptyString /\ (Spec.alphanumeric s \/ Spec.dot_separated s))
  /\ (forall s c, In c (chars s) ->
                  isspace_char c || ispunct_char c = true ->
                  c <> "."%char ->
                  validate_symbol s = false).
Proof.
  split.
  - intros s. split.
    + apply validate_symbol_sound.
    + intros [Hne H]. now apply validate_symbol_complete.
  - intros s c Hin Hc Hdot.
    apply (validate_symbol_rejects s c Hin); [|exact Hdot].
    now apply blank_or_punct_not_alnum.
Qed.

Lemma validate_symbol_spec_witness :
  validate_symbol "BRK.B" = true /\ validate_symbol "BRK B" = false.
Proof.
  split.
  - apply (proj1 validate_symbol_spec "BRK.B"). split.
    + discriminate.
    + right. exists ["BRK"; "B"]. split; [reflexivity|].
      repeat constructor; discriminate.
  - apply (proj2 validate_symbol_spec "BRK B" " "%char).
    + simpl. tauto.
    + reflexivity.
    + discriminate.
Defined.

End ValidateSymbol.

(** ** Regular-expression matching *)
Module RegexFacts.
Import Regex.

Lemma in_matches_chr (c : ascii) (s : string) (o : outcome) :
  In o (matches (Chr c) s) ->
  exists rest, s = String c rest /\ o = (String c EmptyString, [], rest).
Proof.
  simpl. destruct s as [|a rest]; [contradiction|].
  destruct (Ascii.eqb_spec a c) as [->|_]; [|contradiction].
  intros [<-|[]]. eauto.
Qed.

Lemma in_matches_rng (lo hi : ascii) (s : string) (o : outcome) :
  In o (matches (Rng lo hi) s) ->
  exists a rest, PyStr.char_between lo hi a = true /\ s = String a rest
                 /\ o = (String a EmptyString, [], rest).
Proof.
  simpl. destruct s as [|a rest]; [contradiction|].
  destruct (PyStr.char_between lo hi a) eqn:E; [|contradiction].
  intros [<-|[]]. eauto.
Qed.

Lemma in_matches_seq (r1 r2 : regex) (s : string) (o : outcome) :
  In o (matches (Seq r1 r2) s) ->
  exists t1 c1 s1 t2 c2 s2,
    In (t1, c1, s1) (matches r1 s) /\ In (t2, c2, s2) (matches r2 s1)
    /\ o = ((t1 ++ t2)%string, (c1 ++ c2)%list, s2).
Proof.
  simpl. intros H. apply in_flat_map in H as ([[t1 c1] s1] & H1 & H).
  apply in_map_iff in H as ([[t2 c2] s2] & <- & H2).
  exists t1, c1, s1, t2, c2, s2. auto.
Qed.

Lemma in_matches_alt (r1 r2 : regex) (s : string) (o : outcome) :
  In o (matches (Alt r1 r2) s) -> In o (matches r1 s) \/ In o (matches r2 s).
Proof. simpl. apply in_app_or. Qed.

Lemma in_matches_group (name : string) (r : regex) (s : string) (o : outcome) :
  In o (matches (Group name r) s) ->
  exists t c rest, In (t, c, rest) (matches r s)
                   /\ o = (t, (name, t) :: c, rest).
Proof.
  simpl. intros H. apply in_map_iff in H as ([[t c] rest] & <- & H).
  eauto.
Qed.

(** The first way of matching a sequence, when the first way of matching
    its head can be continued. *)
Lemma matches_seq_first (r1 r2 : regex) (s : string)
      (t1 : string) (c1 : captures) (s1 : string) (l1 : list outcome)
      (t2 : string) (c2 : captures) (s2 : string) (l2 : list outcome) :
  matches r1 s = (t1, c1, s1) :: l1 ->
  matches r2 s1 = (t2, c2, s2) :: l2 ->
  exists l, matches (Seq r1 r2) s
            = ((t1 ++ t2)%string, (c1 ++ c2)%list, s2) :: l.
Proof.
  intros H1 H2. simpl. rewrite H1. simpl. rewrite H2. simpl. eauto.
Qed.

Lemma matches_chr_first (c : ascii) (rest : string) :
  matches (Chr c) (String c rest) = [(String c EmptyString, [], rest)].
Proof. simpl. now rewrite Ascii.eqb_refl. Qed.

End RegexFacts.

(** ** Digits and the texts of year, month and day *)
Module DateTextFacts.
Import PyStr Regex RegexFacts Strptime Spec.

Lemma range_cases (lo hi n : Z) :
  lo <= n <= hi ->
  In n (map (fun k => lo + Z.of_nat k) (seq 0 (Z.to_nat (hi - lo + 1)))).
Proof.
  intros H. apply in_map_iff. exists (Z.to_nat (n - lo)). split; [lia|].
  apply in_seq. lia.
Qed.

(** Case analysis on an integer known to lie in a concrete range. *)
Ltac cases_of H :=
  apply range_cases in H; cbv in H;
  repeat (destruct H as [H|H]; [symmetry in H; subst|]);
  try contradiction.

Lemma digit_char_ok (n : Z) :
  0 <= n <= 9 ->
  isdigit_char (digit_char n) = true /\ digit_val (digit_char n) = n.
Proof. intros H. cases_of H; split; reflexivity. Qed.

(** A character in a range of digits is the character of a digit in the
    range. *)
Lemma between_digit (lo hi : Z) (c : ascii) :
  0 <= lo <= 9 -> 0 <= hi <= 9 ->
  char_between (digit_char lo) (digit_char hi) c = true ->
  exists n, lo <= n <= hi /\ c = digit_char n.
Proof.
  intros Hlo Hhi H. unfold char_between in H.
  apply andb_true_iff in H as [H1 H2].
  apply Nat.leb_le in H1, H2.
  unfold digit_char in H1, H2.
  rewrite nat_ascii_embedding in H1, H2 by lia.
  exists (Z.of_nat (nat_of_ascii c) - 48). split; [lia|].
  unfold digit_char.
  replace (48 + Z.to_nat (Z.of_nat (nat_of_ascii c) - 48))%nat
    with (nat_of_ascii c) by lia.
  now rewrite ascii_nat_embedding.
Qed.

Lemma four_digits_of (n1 n2 n3 n4 : Z) :
  0 <= n1 <= 9 -> 0 <= n2 <= 9 -> 0 <= n3 <= 9 -> 0 <= n4 <= 9 ->
  let y := 1000 * n1 + 100 * n2 + 10 * n3 + n4 in
  0 <= y <= 9999 /\
  four_digits y
  = String (digit_char n1) (String (digit_char n2)
      (String (digit_char n3) (String (digit_char n4) EmptyString))).
Proof.
  intros H1 H2 H3 H4 y. split; [subst y; lia|].
  unfold four_digits, two_digits, one_digit.
  replace (y / 1000) with n1 by (subst y; Z.div_mod_to_equations; lia).
  replace (y / 100 mod 10) with n2 by (subst y; Z.div_mod_to_equations; lia).
  replace (y mod 100 / 10) with n3 by (subst y; Z.div_mod_to_equations; lia).
  replace (y mod 100 mod 10) with n4 by (subst y; Z.div_mod_to_equations; lia).
  reflexivity.
Qed.

Lemma four_digits_digits (y : Z) :
  0 <= y <= 9999 ->
  exists n1 n2 n3 n4,
    0 <= n1 <= 9 /\ 0 <= n2 <= 9 /\ 0 <= n3 <= 9 /\ 0 <= n4 <= 9
    /\ y = 1000 * n1 + 100 * n2 + 10 * n3 + n4.
Proof.
  intros H.
  exists (y / 1000), (y / 100 mod 10), (y mod 100 / 10), (y mod 100 mod 10).
  assert (0 <= y / 1000 <= 9) by (Z.div_mod_to_equations; lia).
  assert (0 <= y mod 100 / 10 <= 9) by (Z.div_mod_to_equations; lia).
  pose proof (Z.div_mod y 100 ltac:(lia)) as E1.
  pose proof (Z.div_mod (y / 100) 10 ltac:(lia)) as E2.
  rewrite Z.div_div in E2 by lia. change (100 * 10) with 1000 in E2.
  pose proof (Z.div_mod (y mod 100) 10 ltac:(lia)) as E3.
  pose proof (Z.mod_pos_bound (y / 100) 10 ltac:(lia)).
  pose proof (Z.mod_pos_bound (y mod 100) 10 ltac:(lia)).
  pose proof (Z.mod_pos_bound y 100 ltac:(lia)).
  generalize dependent (y / 1000). generalize dependent (y / 100 mod 10).
  generalize dependent (y mod 100 / 10).
  generalize dependent (y mod 100 mod 10).
  generalize dependent (y / 100). generalize dependent (y mod 100).
  intros. repeat split; lia.
Qed.

Lemma int_of_four_digits (y : Z) :
  0 <= y <= 9999 -> int_of_text (four_digits y) = Some y.
Proof.
  intros H.
  destruct (four_digits_digits y H) as (n1 & n2 & n3 & n4 & H1 & H2 & H3 & H4 & ->).
  destruct (four_digits_of n1 n2 n3 n4 H1 H2 H3 H4) as [_ ->].
  destruct (digit_char_ok n1 H1) as [D1 V1].
  destruct (digit_char_ok n2 H2) as [D2 V2].
  destruct (digit_char_ok n3 H3) as [D3 V3].
  destruct (digit_char_ok n4 H4) as [D4 V4].
  unfold int_of_text.
  assert (Hsp : Ascii.eqb (digit_char n1) " " = false).
  { clear - H1. cases_of H1; reflexivity. }
  rewrite Hsp. cbn [int_digits].
  rewrite D1, D2, D3, D4, V1, V2, V3, V4.
  f_equal. lia.
Qed.

(** Unpacking the ways a regular expression built from the five
    constructors can match. *)
Ltac unpack_matches :=
  repeat match goal with
    | H : In _ (matches (Seq _ _) _) |- _ =>
        apply in_matches_seq in H;
        destruct H as (?t & ?c & ?s & ?t & ?c & ?s & ? & ? & ?)
    | H : In _ (matches (Alt _ _) _) |- _ =>
        apply in_matches_alt in H; destruct H as [H|H]
    | H : In _ (matches (Group _ _) _) |- _ =>
        apply in_matches_group in H; destruct H as (?t & ?c & ?s & ? & ?)
    | H : In _ (matches (Chr _) _) |- _ =>
        apply in_matches_chr in H; destruct H as (?s & ? & ?)
    | H : In _ (matches (Rng _ _) _) |- _ =>
        apply in_matches_rng in H; destruct H as (?a & ?s & ? & ? & ?)
    | H : In _ (matches Digit _) |- _ => unfold Digit in H
    | H : (_, _, _) = (_, _, _) |- _ => injection H as ? ? ?
    end;
  subst.

Ltac digit_of H n :=
  match type of H with
  | char_between ?lo ?hi ?a = true =>
      let l := eval vm_compute in (digit_val lo) in
      let h := eval vm_compute in (digit_val hi) in
      let Hn := fresh "Hn" in
      destruct (between_digit l h a ltac:(lia) ltac:(lia) H)
        as (n & Hn & ->);
      clear H
  end.

Ltac digits_of_ranges :=
  repeat match goal with
         | H : char_between _ _ _ = true |- _ =>
             let n := fresh "n" in digit_of H n
         end.

Lemma in_matches_year (s t rest : string) (c : captures) :
  In (t, c, rest) (matches re_Y s) ->
  exists y, 0 <= y <= 9999 /\ t = four_digits y
            /\ s = (t ++ rest)%string /\ c = [("Y", t)].
Proof.
  unfold re_Y. intros H. unpack_matches. digits_of_ranges.
  match goal with
  | |- exists y, _ /\
         (String (digit_char ?a) _ ++ String (digit_char ?b) _
            ++ String (digit_char ?c) _ ++ String (digit_char ?d) _)%string
         = _ /\ _ =>
      destruct (four_digits_of a b c d) as [Hy Hf]; try assumption;
      exists (1000 * a + 100 * b + 10 * c + d)
  end.
  split; [exact Hy|]. rewrite Hf. repeat split.
Qed.

(** The month group: one of the accepted ways of writing a month
    between 1 and 12. *)
Lemma in_matches_month (s t rest : string) (c : captures) :
  In (t, c, rest) (matches re_m s) ->
  exists m, 1 <= m <= 12 /\ In t (month_texts m)
            /\ s = (t ++ rest)%string /\ c = [("m", t)]
            /\ int_of_text t = Some m.
Proof.
  unfold re_m. intros H. unpack_matches; digits_of_ranges;
    repeat match goal with
           | Hn : _ <= _ <= _ |- _ => cases_of Hn
           end;
    match goal with
    | |- exists m, _ /\ _ /\ _ /\ _ /\ int_of_text ?t = _ =>
        let v := eval vm_compute in (int_of_text t) in
        match v with
        | Some ?m => exists m
        end
    end;
    (split; [lia|]); (split; [vm_compute; tauto|]);
    repeat split.
Qed.

(** The day group: one of the accepted ways of writing a day between 1
    and 31. *)
Lemma in_matches_day (s t rest : string) (c : captures) :
  In (t, c, rest) (matches re_d s) ->
  exists d, 1 <= d <= 31 /\ In t (day_texts d)
            /\ s = (t ++ rest)%string /\ c = [("d", t)]
            /\ int_of_text t = Some d.
Proof.
  unfold re_d. intros H. unpack_matches; digits_of_ranges;
    repeat match goal with
           | Hn : _ <= _ <= _ |- _ => cases_of Hn
           end;
    match goal with
    | |- exists d, _ /\ _ /\ _ /\ _ /\ int_of_text ?t = _ =>
        let v := eval vm_compute in (int_of_text t) in
        match v with
        | Some ?d => exists d
        end
    end;
    (split; [lia|]); (split; [vm_compute; tauto|]);
    repeat split.
Qed.

Lemma append_assoc (a b c : string) :
  ((a ++ b) ++ c)%string = (a ++ (b ++ c))%string.
Proof. induction a as [|x a IH]; simpl; [reflexivity | now rewrite IH]. Qed.

Lemma in_matches_format (s t rest : string) (c : captures) :
  In (t, c, rest) (matches format_regex s) ->
  exists y m d tm td,
    0 <= y <= 9999 /\ 1 <= m <= 12 /\ 1 <= d <= 31
    /\ In tm (month_texts m) /\ In td (day_texts d)
    /\ s = (four_digits y ++ "-" ++ tm ++ "-" ++ td ++ rest)%string
    /\ c = [("Y", four_digits y); ("m", tm); ("d", td)]
    /\ int_of_text tm = Some m /\ int_of_text td = Some d.
Proof.
  unfold format_regex. intros H. unpack_matches.
  match goal with
  | HY : In _ (matches re_Y _), Hm : In _ (matches re_m _),
    Hd : In _ (matches re_d _) |- _ =>
      apply in_matches_year in HY; destruct HY as (y & Hy & -> & HsY & ->);
      apply in_matches_month in Hm;
      destruct Hm as (m & Hm & Htm & Hsm & -> & Him);
      apply in_matches_day in Hd;
      destruct Hd as (d & Hd & Htd & Hsd & -> & Hid)
  end.
  subst. exists y, m, d. do 2 eexists.
  repeat (split; [eassumption|]).
  split; [|split; [reflexivity | split; assumption]].
  reflexivity.
Qed.

Lemma last_day_days_in_month (y m : Z) :
  1 <= m <= 12 -> days_in_month y m = last_day y m.
Proof.
  intros H. unfold days_in_month, last_day, leap_year, is_leap.
  cases_of H; reflexivity.
Qed.

Lemma check_date_fields_iff (y m d : Z) :
  check_date_fields y m d = true <-> calendar_date y m d.
Proof.
  unfold check_date_fields, calendar_date.
  rewrite !andb_true_iff, !Z.leb_le. split.
  - intros [[[[[Hy1 Hy2] Hm1] Hm2] Hd1] Hd2].
    rewrite last_day_days_in_month in Hd2 by lia. lia.
  - intros (Hy & Hm & Hd).
    rewrite last_day_days_in_month by lia. lia.
Qed.

Lemma append_empty (s : string) : (s ++ "")%string = s.
Proof. induction s as [|a s IH]; simpl; [reflexivity | now rewrite IH]. Qed.

Lemma in_date_texts (y m d : Z) (s : string) :
  In s (date_texts y m d) <->
  exists tm td, In tm (month_texts m) /\ In td (day_texts d)
                /\ s = (four_digits y ++ "-" ++ tm ++ "-" ++ td)%string.
Proof.
  unfold date_texts. rewrite in_flat_map. split.
  - intros (tm & Htm & H). apply in_map_iff in H as (td & <- & Htd). eauto.
  - intros (tm & td & Htm & Htd & ->). exists tm. split; [assumption|].
    apply in_map_iff. eauto.
Qed.

Lemma group_Y (a b c : string) :
  group "Y" [("Y", a); ("m", b); ("d", c)] = Some a.
Proof. reflexivity. Qed.
Lemma group_m (a b c : string) :
  group "m" [("Y", a); ("m", b); ("d", c)] = Some b.
Proof. reflexivity. Qed.
Lemma group_d (a b c : string) :
  group "d" [("Y", a); ("m", b); ("d", c)] = Some c.
Proof. reflexivity. Qed.

(** What [strptime] accepts is a text of a calendar date. *)
Lemma strptime_sound (s : string) (y m d : Z) :
  strptime s = Some (y, m, d) ->
  calendar_date y m d /\ In s (date_texts y m d).
Proof.
  unfold strptime, re_match. intros H.
  destruct (matches format_regex s) as [|[[t c] rest] l] eqn:E;
    [discriminate|].
  assert (Hin : In (t, c, rest) (matches format_regex s))
    by (rewrite E; left; reflexivity).
  apply in_matches_format in Hin
    as (y' & m' & d' & tm & td & Hy & Hm & Hd & Htm & Htd & Hs & -> & Him & Hid).
  cbn [hd_error] in H. destruct rest; [|discriminate].
  rewrite group_Y, group_m, group_d, int_of_four_digits, Him, Hid in H
    by assumption.
  destruct (check_date_fields y' m' d') eqn:Hc; [|discriminate].
  injection H as <- <- <-. split.
  - now apply check_date_fields_iff.
  - apply in_date_texts. exists tm, td.
    rewrite append_empty in Hs. auto.
Qed.

(** The year group takes exactly the four digits of a year. *)
Lemma matches_year_first (y : Z) (rest : string) :
  0 <= y <= 9999 ->
  matches re_Y (four_digits y ++ rest)
  = [(four_digits y, [("Y", four_digits y)], rest)].
Proof.
  intros H.
  destruct (four_digits_digits y H)
    as (n1 & n2 & n3 & n4 & H1 & H2 & H3 & H4 & ->).
  destruct (four_digits_of n1 n2 n3 n4 H1 H2 H3 H4) as [_ ->].
  destruct (digit_char_ok n1 H1) as [D1 _].
  destruct (digit_char_ok n2 H2) as [D2 _].
  destruct (digit_char_ok n3 H3) as [D3 _].
  destruct (digit_char_ok n4 H4) as [D4 _].
  unfold isdigit_char in D1, D2, D3, D4. unfold re_Y, Digit.
  cbn [matches flat_map map app append].
  rewrite D1. cbn [matches flat_map map app append].
  rewrite D2. cbn [matches flat_map map app append].
  rewrite D3. cbn [matches flat_map map app append].
  rewrite D4. cbn [matches flat_map map app append].
  reflexivity.
Qed.

Lemma matches_month_first (m : Z) (tm rest : string) :
  1 <= m <= 12 -> In tm (month_texts m) ->
  int_of_text tm = Some m /\
  exists l, matches re_m (tm ++ String "-" rest)
            = (tm, [("m", tm)], String "-" rest) :: l.
Proof.
  intros H Hin. cases_of H; cbv in Hin;
    repeat (destruct Hin as [Hin|Hin]; [subst tm|]); try contradiction;
    (split; [reflexivity | eexists; reflexivity]).
Qed.

Lemma matches_day_first (d : Z) (td : string) :
  1 <= d <= 31 -> In td (day_texts d) ->
  int_of_text td = Some d /\
  exists l, matches re_d td = (td, [("d", td)], EmptyString) :: l.
Proof.
  intros H Hin. cases_of H; cbv in Hin;
    repeat (destruct Hin as [Hin|Hin]; [subst td|]); try contradiction;
    (split; [reflexivity | eexists; reflexivity]).
Qed.

Lemma last_day_le_31 (y m : Z) : 1 <= m <= 12 -> last_day y m <= 31.
Proof.
  intros H. unfold last_day.
  cases_of H; try destruct (leap_year y); lia.
Qed.

(** Every accepted way of writing a calendar date is parsed back to the
    date. *)
Lemma strptime_complete (s : string) (y m d : Z) :
  calendar_date y m d -> In s (date_texts y m d) ->
  strptime s = Some (y, m, d).
Proof.
  intros Hcal Hin. pose proof Hcal as (Hy & Hm & Hd).
  pose proof (last_day_le_31 y m Hm) as H31.
  apply in_date_texts in Hin as (tm & td & Htm & Htd & ->).
  destruct (matches_month_first m tm ("" ++ td) Hm Htm) as (Him & lm & Em).
  destruct (matches_day_first d td ltac:(lia) Htd) as (Hid & ld & Ed).
  destruct (matches_seq_first (Chr "-") re_d _ _ _ _ _ _ _ _ _
              (matches_chr_first "-" td) Ed) as (l1 & E1).
  destruct (matches_seq_first re_m _ _ _ _ _ _ _ _ _ _ Em E1) as (l2 & E2).
  destruct (matches_seq_first (Chr "-") _ _ _ _ _ _ _ _ _ _
              (matches_chr_first "-" _) E2) as (l3 & E3).
  destruct (matches_seq_first re_Y _ _ _ _ _ _ _ _ _ _
              (matches_year_first y _ ltac:(lia)) E3) as (l4 & E4).
  unfold strptime, re_match, format_regex.
  change (four_digits y ++ "-" ++ tm ++ "-" ++ td)%string
    with (four_digits y ++ String "-" (tm ++ String "-" ("" ++ td)))%string.
  rewrite E4. cbn [hd_error app].
  rewrite group_Y, group_m, group_d, int_of_four_digits, Him, Hid by lia.
  apply check_date_fields_iff in Hcal. now rewrite Hcal.
Qed.

End DateTextFacts.

(** ** [validate_date] *)
Section ValidateDate.
Import Spec DateTextFacts.

(** C4: [validate_date] accepts ["2024-1-5"], a string that is not of
    the form YYYY-MM-DD which its docstring and the error message of
    the handlers name: the month and the day are not zero-padded. *)
Lemma validate_date_accepts_unpadded :
  validate_date "2024-1-5" = true
  /\ matches_YYYY_MM_DD "2024-1-5" = false.
Proof. split; reflexivity. Qed.

(** X21: on the strings of the model (code points below 256, where the
    decimal digits are 0 to 9 only) [validate_date s] is true exactly
    when [s] writes a calendar date (years 1 to 9999) as a four-digit
    year, a month and a day separated by hyphens, where the leading zero
    of the month and of the day may be left out (and, for the day,
    replaced by a blank).  In particular the zero-padded form of every
    calendar date is accepted, and ["2024-02-30"] is rejected. *)
Theorem validate_date_spec :
  (forall s, validate_date s = true <->
             exists y m d, calendar_date y m d /\ In s (date_texts y m d))
  /\ (forall y m d, calendar_date y m d ->
                    validate_date (padded_form y m d) = true)
  /\ validate_date "2024-02-30" = false.
Proof.
  assert (Hiff : forall s, validate_date s = true <->
             exists y m d, calendar_date y m d /\ In s (date_texts y m d)).
  { intros s. unfold validate_date. split.
    - destruct (Strptime.strptime s) as [[[y m] d]|] eqn:E; [|discriminate].
      intros _. exists y, m, d. now apply strptime_sound.
    - intros (y & m & d & Hcal & Hin).
      now rewrite (strptime_complete s y m d Hcal Hin). }
  split; [exact Hiff|]. split; [|reflexivity].
  intros y m d Hcal. apply Hiff. exists y, m, d. split; [assumption|].
  apply in_date_texts. exists (two_digits m), (two_digits d).
  unfold month_texts, day_texts.
  destruct (m <? 10), (d <? 10); simpl; auto.
Qed.

Lemma validate_date_spec_witness :
  validate_date "2024-02-29" = true.
Proof.
  apply (proj1 validate_date_spec "2024-02-29").
  exists 2024, 2, 29. split.
  - unfold calendar_date. simpl. lia.
  - simpl. auto.
Defined.

End ValidateDate.

(** ** Facts about [float64] arithmetic, from the IEEE 754 specification
       of the primitive operations *)
Module FloatFacts.
Import Pandas.
Local Open Scope float_scope.

Lemma nan_of_spec (x : float) : Prim2SF x = S754_nan -> x = nan.
Proof. intros H. rewrite <- (SF2Prim_Prim2SF x), H. reflexivity. Qed.

Lemma SFcompare_refl (f : spec_float) :
  f <> S754_nan -> SFcompare f f = Some Eq.
Proof.
  destruct f as [s|s| |s m e]; simpl; intros H;
    try congruence; try (destruct s; reflexivity).
  destruct s; rewrite Z.compare_refl, Pos.compare_cont_refl; reflexivity.
Qed.

(** Only [NaN] is missing. *)
Lemma isna_nan (x : float) : isna x = true -> x = nan.
Proof.
  unfold isna. rewrite eqb_spec. unfold SFeqb. intros H.
  apply nan_of_spec.
  destruct (Prim2SF x) as [s|s| |s m e] eqn:E; [..|reflexivity|];
    rewrite SFcompare_refl in H by discriminate; discriminate.
Qed.

Lemma sub_nan_l (y : float) : nan - y = nan.
Proof.
  apply nan_of_spec. rewrite sub_spec.
  change (Prim2SF nan) with S754_nan.
  lazy beta iota delta [SF64sub SFsub]. reflexivity.
Qed.

Lemma div_nan_r (x : float) : x / nan = nan.
Proof.
  apply nan_of_spec. rewrite div_spec.
  change (Prim2SF nan) with S754_nan.
  destruct (Prim2SF x); lazy beta iota delta [SF64div SFdiv]; reflexivity.
Qed.

Lemma SFcompare_Lt_Gt (f g : spec_float) :
  SFcompare f g = Some Lt -> SFcompare g f = Some Gt.
Proof.
  destruct f as [s|s| |s m e], g as [s'|s'| |s' m' e']; simpl;
    try discriminate;
    try (destruct s; discriminate || reflexivity);
    try (destruct s'; discriminate || reflexivity);
    try (destruct s, s'; discriminate || reflexivity).
  destruct s, s'; try discriminate; try reflexivity;
    rewrite (Z.compare_antisym e e');
    destruct (Z.compare e e') eqn:Ee; simpl; try discriminate; try reflexivity;
    change (Pos.compare_cont Eq m' m) with (Pos.compare m' m);
    change (Pos.compare_cont Eq m m') with (Pos.compare m m');
    rewrite (Pos.compare_antisym m m');
    destruct (Pos.compare m m'); simpl;
    discriminate || reflexivity.
Qed.

(** [a < b] excludes [b < a]. *)
Lemma ltb_antisym (a b : float) : (a <? b) = true -> (b <? a) = false.
Proof.
  rewrite !ltb_spec. unfold SFltb. intros H.
  destruct (SFcompare (Prim2SF a) (Prim2SF b)) as [[]|] eqn:E;
    try discriminate.
  now rewrite (SFcompare_Lt_Gt _ _ E).
Qed.

(** A value above 5 is not below -5. *)
Lemma above_5_not_below (p : float) : (5 <? p) = true -> (p <? -5) = false.
Proof.
  rewrite !ltb_spec. unfold SFltb.
  assert (E : Prim2SF 5 = S754_finite false 5629499534213120 (-50))
    by (vm_compute; reflexivity).
  assert (E' : Prim2SF (-5) = S754_finite true 5629499534213120 (-50))
    by (vm_compute; reflexivity).
  rewrite E, E'.
  destruct (Prim2SF p) as [s|s| |s m e]; unfold SFcompare;
    try destruct s; try discriminate; reflexivity.
Qed.

End FloatFacts.

(** ** The analytics transform *)
Module AnalyticsFacts.
Import Pandas Analytics FloatFacts HandlerLogic.
Local Open Scope float_scope.

Lemma isna_of_nan : isna nan = true.
Proof. reflexivity. Qed.

Lemma pairwise_sum_unfold (depth : nat) (a : Series) :
  pairwise_sum (S depth) a
  = match a with
    | a0 :: a1 :: a2 :: a3 :: a4 :: a5 :: a6 :: a7 :: rest =>
        if (List.length a <=? 128)%nat
        then sum_blocks a0 a1 a2 a3 a4 a5 a6 a7 rest
        else
          let n2 := (List.length a / 2 - (List.length a / 2) mod 8)%nat in
          pairwise_sum depth (firstn n2 a) + pairwise_sum depth (skipn n2 a)
    | _ => fold_left PrimFloat.add a 0
    end.
Proof. reflexivity. Qed.

Lemma pairwise_sum_short (depth : nat) (a : Series) :
  (List.length a <= 128)%nat -> pairwise_sum depth a = pairwise_sum 0 a.
Proof.
  intros H. destruct depth; [reflexivity|]. rewrite pairwise_sum_unfold.
  destruct a as [|a0 [|a1 [|a2 [|a3 [|a4 [|a5 [|a6 [|a7 rest]]]]]]]];
    try reflexivity.
  apply Nat.leb_le in H.
  change (pairwise_sum 0 ?l) with
    (if (List.length l <=? 128)%nat
     then sum_blocks a0 a1 a2 a3 a4 a5 a6 a7 rest else 0).
  now rewrite H.
Qed.

(** The depth allowed for the splits of the pairwise summation is never
    exhausted: any depth from the length of the array on gives the same
    sum. *)
Lemma pairwise_sum_depth (d1 d2 : nat) (a : Series) :
  (List.length a <= d1)%nat -> (List.length a <= d2)%nat ->
  pairwise_sum d1 a = pairwise_sum d2 a.
Proof.
  revert d2 a. induction d1 as [|d1 IH]; intros d2 a H1 H2.
  - rewrite (pairwise_sum_short d2 a) by lia. reflexivity.
  - destruct d2 as [|d2].
    + rewrite (pairwise_sum_short (S d1) a) by lia. reflexivity.
    + destruct (List.length a <=? 128)%nat eqn:E.
      * apply Nat.leb_le in E.
        now rewrite (pairwise_sum_short (S d1) a),
          (pairwise_sum_short (S d2) a).
      * apply Nat.leb_gt in E. rewrite !pairwise_sum_unfold.
        destruct a as [|a0 [|a1 [|a2 [|a3 [|a4 [|a5 [|a6 [|a7 rest]]]]]]]];
          try reflexivity.
        remember (a0 :: a1 :: a2 :: a3 :: a4 :: a5 :: a6 :: a7 :: rest)
          as l eqn:El.
        replace (List.length l <=? 128)%nat with false
          by (symmetry; apply Nat.leb_gt; exact E).
        cbv zeta.
        set (n2 := (List.length l / 2 - (List.length l / 2) mod 8)%nat).
        assert (Hn2 : (1 <= n2 < List.length l)%nat).
        { unfold n2.
          pose proof (Nat.mod_upper_bound (List.length l / 2) 8 ltac:(lia)).
          pose proof (Nat.div_mod_eq (List.length l) 2).
          pose proof (Nat.mod_upper_bound (List.length l) 2 ltac:(lia)).
          lia. }
        rewrite (IH d2 (firstn n2 l)), (IH d2 (skipn n2 l));
          rewrite ?length_firstn, ?length_skipn; try lia.
        reflexivity.
Qed.







Lemma count_present_app (a b : Series) :
  count_present (a ++ b)%list = (count_present a + count_present b)%nat.
Proof. unfold count_present. now rewrite filter_app, length_app. Qed.

Lemma count_present_gap (s : Series) :
  Exists (fun c => isna c = true) s -> (count_present s < List.length s)%nat.
Proof.
  induction 1 as [x l Hx|x l _ IH]; unfold count_present in *; cbn [filter].
  - rewrite Hx. cbn [negb List.length].
    pose proof (filter_length_le (fun x => negb (isna x)) l). lia.
  - destruct (negb (isna x)); cbn [List.length]; [lia|].
    pose proof (filter_length_le (fun x => negb (isna x)) l). lia.
Qed.

Lemma nobs_add (l : Series) (st : mean_state) :
  nobs (fold_left add_mean l st) = (nobs st + count_present l)%nat.
Proof.
  revert st. induction l as [|x l IH]; intros st.
  - cbn. lia.
  - cbn [fold_left]. rewrite IH. unfold add_mean, count_present, isna.
    cbn [filter]. destruct (x =? x); cbn [negb nobs List.length]; lia.
Qed.

Lemma nobs_remove (l : Series) (st : mean_state) :
  nobs (fold_left remove_mean l st) = (nobs st - count_present l)%nat.
Proof.
  revert st. induction l as [|x l IH]; intros st.
  - cbn. lia.
  - cbn [fold_left]. rewrite IH. unfold remove_mean, count_present, isna.
    cbn [filter]. destruct (x =? x); cbn [negb nobs List.length]; lia.
Qed.

Lemma firstn_plus {A : Type} (a b : nat) (l : list A) :
  firstn (a + b) l = (firstn a l ++ firstn b (skipn a l))%list.
Proof.
  revert l. induction a as [|a IH]; intros l; [reflexivity|].
  destruct l as [|x l]; [now rewrite !firstn_nil|].
  cbn [Nat.add firstn skipn app]. now rewrite IH.
Qed.

Lemma slice_split (v : Series) (a b c : nat) :
  (a <= b <= c)%nat -> slice v a c = (slice v a b ++ slice v b c)%list.
Proof.
  intros H. unfold slice.
  replace (c - a)%nat with ((b - a) + (c - b))%nat by lia.
  rewrite firstn_plus, skipn_skipn.
  now replace (b - a + a)%nat with b by lia.
Qed.

(** The number of observations tracked by the loop of [roll_mean] is the
    number of present values of the current window. *)
Lemma roll_nobs (values : Series) (window minp n : nat)
  (acc : mean_state * Series) :
  exists st out,
    fold_left (roll_step values window minp) (seq 0 (S n)) acc
    = (st, (out ++ [calc_mean minp st])%list)
    /\ nobs st = count_present
                   (slice values (window_start window n) (window_end n)).
Proof.
  induction n as [|n (st & out & E & Hn)].
  - destruct acc as [st0 out0]. cbn [seq fold_left].
    unfold roll_step. cbn [Nat.eqb orb].
    eexists. exists out0. split; [reflexivity|].
    rewrite nobs_add. reflexivity.
  - rewrite seq_S, fold_left_app, E. cbn [fold_left Nat.add].
    unfold roll_step at 1. cbn [Nat.eqb orb].
    replace (S n - 1)%nat with n by lia.
    destruct (window_end n <=? window_start window (S n))%nat eqn:Hreset.
    + eexists. eexists. split; [reflexivity|].
      rewrite nobs_add. reflexivity.
    + apply Nat.leb_gt in Hreset. eexists. eexists.
      split; [reflexivity|].
      rewrite nobs_add, nobs_remove, Hn.
      unfold window_start, window_end in *.
      rewrite (slice_split values (n + 1 - window) (S n + 1 - window) (n + 1))
        by lia.
      rewrite (slice_split values (S n + 1 - window) (n + 1) (S n + 1))
        by lia.
      rewrite !count_present_app. lia.
Qed.

Lemma skipn_map {A B : Type} (f : A -> B) (n : nat) (l : list A) :
  skipn n (map f l) = map f (skipn n l).
Proof.
  revert l. induction n as [|n IH]; intros [|x l]; try reflexivity.
  cbn [map skipn]. apply IH.
Qed.

(** A missing or infinite close in the trailing window leaves fewer
    present observations than the window needs. *)
Lemma sma_window_gap (w : nat) (closes : Series) :
  (1 <= w <= List.length closes)%nat ->
  Exists (fun c => isna c = true \/ isinf c = true)
         (skipn (List.length closes - w) closes) ->
  sma w closes = Some nan.
Proof.
  intros [Hw Hlen] Hgap. unfold sma, rolling_mean, roll_mean.
  apply Nat.leb_le in Hlen as Hleb. rewrite Hleb. rewrite length_map.
  destruct (List.length closes) as [|n] eqn:En; [lia|].
  set (values := map (fun x => if isinf x then nan else x) closes).
  destruct (roll_nobs values w w n (setup nan, [])) as (st & out & E & Hn).
  rewrite E. cbn [snd]. rewrite last_last.
  assert (Hslice : slice values (window_start w n) (window_end n)
                   = map (fun x => if isinf x then nan else x)
                         (skipn (S n - w) closes)).
  { unfold slice, window_start, window_end, values.
    replace (n + 1 - w)%nat with (S n - w)%nat by lia.
    rewrite skipn_map. apply firstn_all2.
    rewrite length_map, length_skipn. lia. }
  assert (Hlt : (nobs st < w)%nat).
  { rewrite Hn, Hslice.
    replace w with (List.length (map (fun x => if isinf x then nan else x)
                                   (skipn (S n - w) closes))) at 2
      by (rewrite length_map, length_skipn; lia).
    apply count_present_gap. apply Exists_exists.
    apply Exists_exists in Hgap as (c & Hin & Hc).
    exists (if isinf c then nan else c).
    split; [exact (in_map (fun x => if isinf x then nan else x) _ c Hin)|].
    destruct Hc as [Hc|Hc]; [|now rewrite Hc].
    destruct (isinf c); [reflexivity | exact Hc]. }
  unfold calc_mean.
  replace (w <=? nobs st)%nat with false
    by (symmetry; apply Nat.leb_gt; exact Hlt).
  reflexivity.
Qed.

Lemma sma_missing_iff (w : nat) (closes : Series) :
  sma w closes = None <-> (List.length closes < w)%nat.
Proof.
  unfold sma. destruct (w <=? List.length closes)%nat eqn:E.
  - apply Nat.leb_le in E. split; [discriminate | lia].
  - apply Nat.leb_gt in E. split; [auto | reflexivity].
Qed.

(** The pairs of [pct_change] without filling are the consecutive
    closes. *)
Lemma zip_shifted (x : float) (r : Series) :
  zip_with (fun cur prev => cur / prev - 1) r (removelast (x :: r))
  = Spec.pairwise_changes (x :: r).
Proof.
  revert x. induction r as [|y r IH]; intros x; [reflexivity|].
  change (removelast (x :: y :: r)) with (x :: removelast (y :: r)).
  cbn [zip_with Spec.pairwise_changes]. now rewrite IH.
Qed.

Lemma daily_returns_nofill (closes : Series) :
  daily_returns NoFill closes = Spec.daily_returns closes.
Proof.
  unfold daily_returns, Spec.daily_returns, pct_change, dropna, shift1.
  destruct closes as [|x r]; [reflexivity|].
  cbn [zip_with filter]. rewrite zip_shifted.
  now rewrite div_nan_r, sub_nan_l, isna_of_nan.
Qed.

Lemma ffill_no_gap (prev : float) (s : Series) :
  Forall (fun c => isna c = false) s -> ffill_from prev s = s.
Proof.
  revert prev. induction s as [|x s IH]; intros prev H; [reflexivity|].
  inversion H as [|? ? Hx Hs]; subst. simpl. now rewrite Hx, IH.
Qed.

Lemma daily_returns_any_fill (fm : fill_method) (closes : Series) :
  fm = NoFill \/ Forall (fun c => isna c = false) closes ->
  daily_returns fm closes = Spec.daily_returns closes.
Proof.
  intros [->|H]; [apply daily_returns_nofill|].
  rewrite <- daily_returns_nofill. destruct fm; [|reflexivity].
  unfold daily_returns, pct_change, ffill. now rewrite ffill_no_gap.
Qed.

(** Under either default the daily returns are those of the filled
    closes. *)
Lemma daily_returns_filled (fm : fill_method) (closes : Series) :
  daily_returns fm closes = Spec.daily_returns (Spec.filled fm closes).
Proof.
  rewrite <- daily_returns_nofill. destruct fm; reflexivity.
Qed.

Lemma volatility_of_returns (returns : Series) :
  volatility returns
  = match returns with
    | [] => None
    | _ :: _ => Some (round2 (std returns * sqrt 252 * 100))
    end.
Proof. destruct returns; reflexivity. Qed.

(** A value equal to zero is present. *)
Lemma eqb_zero_present (x : float) : (x =? 0) = true -> isna x = false.
Proof.
  unfold isna. rewrite !eqb_spec. unfold SFeqb.
  assert (E : Prim2SF 0 = S754_zero false) by (vm_compute; reflexivity).
  rewrite E.
  destruct (Prim2SF x) as [s|s| |s m e]; try destruct s;
    lazy beta iota delta [SFcompare]; intros H;
    try discriminate H; try reflexivity.
Qed.

End AnalyticsFacts.

(** ** Properties of the metrics and of the trend label *)
Section Metrics.
Import Pandas FloatFacts AnalyticsFacts.
Local Open Scope float_scope.

Variable float_str : float -> string.


(** C7 (amended): [price_change_percent] is the change between the two
    endpoint closes (not the rounded [price_change_absolute]) divided by
    the first close, times 100, rounded to 2 decimals; it is missing
    exactly when [price_change_absolute] is missing or the first close is
    zero; when the first close is zero and the last close is present,
    the percent change is missing while the absolute change is
    present. *)
Theorem price_change_percent_spec (fill : fill_method) (closes : Series) :
  let m := metrics_of float_str fill closes in
  let first_close := hd nan closes in
  let last_close := last closes nan in
  Schema.price_change_percent m
  = Spec.percent_from_closes (Schema.price_change_absolute m)
      first_close last_close
  /\ (Schema.price_change_percent m = None <->
      Schema.price_change_absolute m = None \/ (first_close =? 0) = true)
  /\ ((first_close =? 0) = true -> isna last_close = false ->
      Schema.price_change_percent m = None
      /\ exists a, Schema.price_change_absolute m = Some a).
Proof.
  cbv zeta. unfold metrics_of, Analytics.analyse.
  cbn [fst Schema.price_change_percent Schema.price_change_absolute].
  unfold Analytics.price_change_percent, Spec.percent_from_closes.
  split; [|split].
  - destruct (Analytics.price_change_absolute _ _); [|reflexivity].
    destruct (hd nan closes =? 0); reflexivity.
  - destruct (Analytics.price_change_absolute _ _) as [a|].
    + destruct (hd nan closes =? 0); cbn [negb].
      * split; auto.
      * split; [discriminate | intros [H|H]; discriminate].
    + split; auto.
  - intros Hz Hl. unfold Analytics.price_change_absolute.
    rewrite (eqb_zero_present _ Hz), Hl, Hz. simpl. eauto.
Qed.

(** C8 (amended): the volatility is the standard deviation of the daily
    returns times the square root of 252 times 100, rounded to 2
    decimals, where the daily returns are the relative changes of
    consecutive closes, the missing results dropped, taken after
    [pct_change] has applied its default filling: before pandas 3.0 a
    missing close is first replaced by the last present close before it,
    from pandas 3.0 on the closes are taken as they are.  The volatility
    is missing exactly when there is no such daily return, as for a
    series of one point.  Without filling, and for every series without
    a missing close, the daily returns are those of the closes
    themselves. *)
Theorem volatility_spec (fill : fill_method) (closes : Series) :
  let m := metrics_of float_str fill closes in
  Schema.volatility m = Spec.volatility (Spec.filled fill closes)
  /\ (Schema.volatility m = None <->
      Spec.daily_returns (Spec.filled fill closes) = [])
  /\ (List.length closes = 1%nat -> Schema.volatility m = None)
  /\ (fill = NoFill \/ Forall (fun c => isna c = false) closes ->
      Schema.volatility m = Spec.volatility closes).
Proof.
  cbv zeta. unfold metrics_of, Analytics.analyse.
  cbn [fst Schema.volatility]. split; [|split; [|split]].
  - rewrite (daily_returns_filled fill closes), volatility_of_returns.
    unfold Spec.volatility. destruct (Spec.daily_returns _); reflexivity.
  - rewrite (daily_returns_filled fill closes), volatility_of_returns.
    destruct (Spec.daily_returns _); split; try discriminate; reflexivity.
  - rewrite (daily_returns_filled fill closes), volatility_of_returns.
    destruct closes as [|c [|c' r]]; try discriminate. intros _.
    assert (E : Spec.daily_returns (Spec.filled fill [c]) = []).
    { destruct fill; cbn; [destruct (isna c)|]; reflexivity. }
    now rewrite E.
  - intros Hfill.
    rewrite (daily_returns_any_fill fill closes Hfill), volatility_of_returns.
    unfold Spec.volatility. destruct (Spec.daily_returns _); reflexivity.
Qed.

(** C5: the label starts at "Neutral", is "Bullish" when the percent
    change is above 5 and "Bearish" when it is below -5; with both
    moving averages present, [sma_50 > sma_200] turns every label except
    "Bullish" into "Bullish (SMA crossover)", and [sma_50 < sma_200]
    turns every label except "Bearish" into "Bearish (SMA crossover)";
    the label the handler reports is this label of the percent change
    and the two moving averages it reports; so a series whose percent
    change is above 5 and whose [sma_50] is above its [sma_200] is
    labelled exactly "Bullish". *)
Theorem trend_direction_spec :
  Analytics.trend_from_price_change None = "Neutral"%string
  /\ (forall p, (5 <? p) = true ->
                Analytics.trend_from_price_change (Some p) = "Bullish"%string)
  /\ (forall p, (p <? -5) = true ->
                Analytics.trend_from_price_change (Some p) = "Bearish"%string)
  /\ (forall p, (5 <? p) = false -> (p <? -5) = false ->
                Analytics.trend_from_price_change (Some p) = "Neutral"%string)
  /\ (forall percent a b, (b <? a) = true ->
        Analytics.trend_direction percent (Some a) (Some b)
        = if String.eqb (Analytics.trend_from_price_change percent) "Bullish"
          then "Bullish"%string else "Bullish (SMA crossover)"%string)
  /\ (forall percent a b, (a <? b) = true ->
        Analytics.trend_direction percent (Some a) (Some b)
        = if String.eqb (Analytics.trend_from_price_change percent) "Bearish"
          then "Bearish"%string else "Bearish (SMA crossover)"%string)
  /\ (forall percent s50 s200,
        match s50, s200 with
        | Some a, Some b => (b <? a) = false /\ (a <? b) = false
        | _, _ => True
        end ->
        Analytics.trend_direction percent s50 s200
        = Analytics.trend_from_price_change percent)
  /\ (forall fill closes,
        let m := metrics_of float_str fill closes in
        Schema.trend_direction (insights_of float_str fill closes)
        = Analytics.trend_direction (Schema.price_change_percent m)
            (Schema.sma_50 m) (Schema.sma_200 m))
  /\ (forall fill closes p a b,
        let m := metrics_of float_str fill closes in
        Schema.price_change_percent m = Some p -> (5 <? p) = true ->
        Schema.sma_50 m = Some a -> Schema.sma_200 m = Some b ->
        (b <? a) = true ->
        Schema.trend_direction (insights_of float_str fill closes)
        = "Bullish"%string).
Proof.
  assert (Hbase : forall percent,
             Analytics.trend_from_price_change percent = "Bullish"%string
             \/ Analytics.trend_from_price_change percent = "Bearish"%string
             \/ Analytics.trend_from_price_change percent = "Neutral"%string).
  { intros [p|]; simpl; [|auto].
    destruct (5 <? p); [auto|]. destruct (p <? -5); auto. }
  assert (Hup : forall percent a b, (b <? a) = true ->
        Analytics.trend_direction percent (Some a) (Some b)
        = if String.eqb (Analytics.trend_from_price_change percent) "Bullish"
          then "Bullish"%string else "Bullish (SMA crossover)"%string).
  { intros percent a b H. unfold Analytics.trend_direction. rewrite H.
    destruct (Hbase percent) as [E|[E|E]]; rewrite E; reflexivity. }
  split; [reflexivity|]. split; [|split; [|split]].
  - intros p H. simpl. now rewrite H.
  - intros p H. simpl.
    destruct (5 <? p) eqn:E; [|now rewrite H].
    rewrite (above_5_not_below p E) in H. discriminate.
  - intros p H1 H2. simpl. now rewrite H1, H2.
  - split; [exact Hup|]. split; [|split].
    + intros percent a b H. unfold Analytics.trend_direction.
      rewrite (ltb_antisym a b H), H.
      destruct (Hbase percent) as [E|[E|E]]; rewrite E; reflexivity.
    + intros percent s50 s200 H. unfold Analytics.trend_direction.
      destruct s50 as [a|], s200 as [b|]; try reflexivity.
      destruct H as [H1 H2]. now rewrite H1, H2.
    + split; [intros fill closes; reflexivity|].
      intros fill closes p a b m Hp H5 Ha Hb Hab.
      unfold insights_of, Analytics.analyse. cbn [snd Schema.trend_direction].
      unfold m, metrics_of, Analytics.analyse in Hp, Ha, Hb.
      cbn [fst Schema.price_change_percent Schema.sma_50 Schema.sma_200]
        in Hp, Ha, Hb.
      rewrite Hp, Ha, Hb, (Hup (Some p) a b Hab). simpl. now rewrite H5.
Qed.

End Metrics.

Section MetricsExamples.
Import Pandas Examples.
Local Open Scope float_scope.



(** C7, as stated, fails: on the closes 10 and 10.004 the absolute change
    rounds to 0, so the percent change computed from it would be 0, but
    the handler reports 0.04. *)
Lemma percent_not_from_rounded_absolute :
  Schema.price_change_percent (metrics_of plain NoFill small_move)
  <> Spec.percent_from_absolute
       (Schema.price_change_absolute (metrics_of plain NoFill small_move))
       (hd nan small_move).
Proof.
  intros H.
  apply (f_equal (fun o => match o with
                           | Some v => (v =? 0)
                           | None => false
                           end)) in H.
  vm_compute in H. discriminate H.
Qed.

Lemma price_change_percent_spec_witness :
  Schema.price_change_percent (metrics_of plain NoFill from_zero) = None
  /\ exists a, Schema.price_change_absolute (metrics_of plain NoFill from_zero)
               = Some a.
Proof.
  apply (proj2 (proj2 (price_change_percent_spec plain NoFill from_zero)));
    reflexivity.
Defined.

(** C8, as stated, fails under the default of pandas before 3.0: the
    gap of [with_gap] is filled with the close before it, which yields
    the returns 0 and 1 and a volatility of 793.73, where the pairwise
    changes of the closes are all missing and the volatility would be
    missing. *)
Lemma volatility_fills_gaps :
  Schema.volatility (metrics_of plain Pad with_gap) = Some 793.73
  /\ Analytics.daily_returns Pad with_gap = [0; 1]
  /\ Spec.daily_returns with_gap = []
  /\ Spec.volatility with_gap = None.
Proof. repeat split; vm_compute; reflexivity. Qed.

Lemma volatility_spec_witness :
  List.length [7] = 1%nat
  /\ Schema.volatility (metrics_of plain Pad [7]) = None.
Proof.
  split; [reflexivity|].
  apply (proj1 (proj2 (proj2 (volatility_spec plain Pad [7])))).
  reflexivity.
Defined.

Lemma trend_direction_spec_witness :
  Schema.trend_direction (insights_of plain NoFill rising_300)
  = "Bullish"%string.
Proof.
  destruct (trend_direction_spec plain)
    as (_ & _ & _ & _ & _ & _ & _ & _ & H).
  apply (H NoFill rising_300 29900 275.5 200.5);
    vm_compute; reflexivity.
Defined.

End MetricsExamples.

(** ** The request handlers *)
Module ServicesFacts.
Import Http Provider Services.

Lemma startswith_app (p s : string) : PyStr.startswith p (p ++ s) = true.
Proof.
  induction p as [|a p IH]; simpl; [reflexivity|].
  now rewrite Ascii.eqb_refl, IH.
Qed.

Lemma contains_prefix (p s : string) : PyStr.contains p (p ++ s) = true.
Proof.
  destruct (p ++ s)%string eqn:E; simpl; rewrite <- E, startswith_app;
    reflexivity.
Qed.

Lemma validate_date_of_strptime (s : string) (d : Strptime.date) :
  Strptime.strptime s = Some d -> validate_date s = true.
Proof. unfold validate_date. now intros ->. Qed.

Lemma returns_ret {A : Type} (P : A -> Prop) (a : A) :
  P a -> returns P (ret a).
Proof. intros H log a' log' E. injection E as <- _. exact H. Qed.

Lemma returns_raise {A : Type} (P : A -> Prop) (e : exception) :
  returns P (raise e).
Proof. intros log a log' E. discriminate E. Qed.

Lemma returns_bind {A B : Type} (P : B -> Prop) (m : M A) (k : A -> M B) :
  (forall a, returns P (k a)) -> returns P (bind m k).
Proof.
  intros H log b log' E. unfold bind in E.
  destruct (m log) as [[a|e] l]; [|discriminate E].
  exact (H a l b log' E).
Qed.

Lemma returns_try {A : Type} (P : A -> Prop) (body : M A)
      (handler : exception -> M A) :
  returns P body -> (forall e, returns P (handler e)) ->
  returns P (try_except body handler).
Proof.
  intros Hb Hh log a log' E. unfold try_except in E.
  destruct (body log) as [[a'|e] l] eqn:Eb.
  - injection E as <- <-. exact (Hb log a' l Eb).
  - exact (Hh e l a log' E).
Qed.

(** Walking through a handler with the rules above. *)
Ltac walk :=
  repeat first
    [ apply returns_try
    | apply returns_bind
    | apply returns_raise
    | apply returns_ret
    | match goal with
      | |- returns _ (if ?c then _ else _) => destruct c
      | |- returns _ (match ?x with _ => _ end) => destruct x
      | |- forall _, _ => intro
      end ].

Section WithProvider.
Variable history : string -> string -> string -> result DataFrame.
Variable info : string -> result Info.
Variable fill : Pandas.fill_method.
Variable float_str : float -> string.
Variable py_round2 : float -> float.

Lemma analysis_symbol_upper (request : AnalysisRequest) :
  returns (fun body => Schema.analysis_symbol body
                       = PyStr.upper (symbol request))
          (get_company_analysis history fill float_str request).
Proof. unfold get_company_analysis. walk; reflexivity. Qed.

Lemma historical_symbol_upper (request : HistoricalDataRequest) :
  returns (fun body => Schema.historical_symbol body
                       = PyStr.upper (symbol request))
          (get_historical_stock_data history request).
Proof. unfold get_historical_stock_data. walk; reflexivity. Qed.

Lemma info_symbol_upper (sym : string) :
  returns (fun body => Schema.info_symbol body = PyStr.upper sym)
          (get_company_info info sym).
Proof. unfold get_company_info. walk; reflexivity. Qed.

Lemma stock_symbol_upper (sym : string) :
  returns (fun body => Schema.stock_symbol body = PyStr.upper sym)
          (get_stock_data info py_round2 sym).
Proof. unfold get_stock_data. walk; reflexivity. Qed.

Lemma serve_success {B : Type} (handler : M B) (body : B) (log : list call) :
  serve handler = (Success body, log) -> handler [] = (Ok body, log).
Proof.
  unfold serve. destruct (handler []) as [[b|[]] l]; intros E;
    try discriminate E; now injection E as -> ->.
Qed.

(** C10: on every successful response of the four services the
    [symbol] field is the request's symbol in upper case. *)
Theorem symbol_is_upper_cased :
  (forall request body log,
      serve (get_company_analysis history fill float_str request)
      = (Success body, log) ->
      Schema.analysis_symbol body = PyStr.upper (symbol request))
  /\ (forall request body log,
      serve (get_historical_stock_data history request)
      = (Success body, log) ->
      Schema.historical_symbol body = PyStr.upper (symbol request))
  /\ (forall sym body log,
      serve (get_company_info info sym) = (Success body, log) ->
      Schema.info_symbol body = PyStr.upper sym)
  /\ (forall sym body log,
      serve (get_stock_data info py_round2 sym) = (Success body, log) ->
      Schema.stock_symbol body = PyStr.upper sym).
Proof.
  repeat split; intros ? body log E; apply serve_success in E.
  - exact (analysis_symbol_upper _ _ _ _ E).
  - exact (historical_symbol_upper _ _ _ _ E).
  - exact (info_symbol_upper _ _ _ _ E).
  - exact (stock_symbol_upper _ _ _ _ E).
Qed.

(** C1: with a valid request and an empty frame from the provider the
    analysis handler answers 404, but the message raised for the empty
    frame is replaced in the [except] clause by one that names only the
    symbol. *)
Theorem empty_series_response (request : AnalysisRequest)
        (start end_ : Strptime.date) :
  String.eqb (symbol request) "" = false ->
  validate_symbol (symbol request) = true ->
  Strptime.strptime (start_date request) = Some start ->
  Strptime.strptime (end_date request) = Some end_ ->
  Strptime.date_ltb end_ start = false ->
  history (symbol request) (start_date request) (end_date request) = Ok [] ->
  serve (get_company_analysis history fill float_str request)
  = (JSONError 404 ("Company symbol " ++ symbol request ++ " not found"),
     [HistoryCall (symbol request) (start_date request) (end_date request)]).
Proof.
  intros Hne Hsym Hs He Hlt Hh.
  unfold serve, get_company_analysis.
  rewrite Hne, Hsym, (validate_date_of_strptime _ _ Hs),
    (validate_date_of_strptime _ _ He).
  cbn [negb orb].
  unfold try_except, bind, strptime, ticker_history.
  rewrite Hs, He. unfold ret. rewrite Hlt, Hh.
  cbn [Pandas.empty raise app str].
  change (PyStr.str_of_Z 404) with "404".
  rewrite contains_prefix. reflexivity.
Qed.

(** C2: with a valid request whose end date is before its start date no
    provider call is made, but the 400 raised inside the [try] block is
    caught by the [except] clause and answered as 500, by the analysis
    and by the historical-data handler alike. *)
Theorem reversed_range_response (request : AnalysisRequest)
        (start end_ : Strptime.date) :
  String.eqb (symbol request) "" = false ->
  validate_symbol (symbol request) = true ->
  Strptime.strptime (start_date request) = Some start ->
  Strptime.strptime (end_date request) = Some end_ ->
  Strptime.date_ltb end_ start = true ->
  serve (get_company_analysis history fill float_str request)
  = (JSONError 500
       "Error performing analysis: 400: End date cannot be before start date",
     [])
  /\ serve (get_historical_stock_data history request)
     = (JSONError 500
          "Error retrieving historical data: 400: End date cannot be before start date",
        []).
Proof.
  intros Hne Hsym Hs He Hlt.
  unfold serve, get_company_analysis, get_historical_stock_data.
  rewrite Hne, Hsym, (validate_date_of_strptime _ _ Hs),
    (validate_date_of_strptime _ _ He).
  cbn [negb orb].
  unfold try_except, bind, strptime.
  rewrite Hs, He. unfold ret. rewrite Hlt.
  split; reflexivity.
Qed.

End WithProvider.

End ServicesFacts.

Section ServiceExamples.
Import Http Provider Services Examples ServicesFacts.

Lemma symbol_is_upper_cased_witness :
  exists body,
    serve (get_historical_stock_data (history_of [1%float])
             {| symbol := "brk.b"; start_date := "2024-01-01";
                end_date := "2024-02-01" |})
    = (Success body,
       [HistoryCall "brk.b" "2024-01-01" "2024-02-01"])
    /\ Schema.historical_symbol body = "BRK.B".
Proof.
  eexists. split; [vm_compute; reflexivity|].
  apply (proj1 (proj2 (symbol_is_upper_cased (history_of [1%float]) no_info
                         Pandas.NoFill plain (fun x => x)))
           {| symbol := "brk.b"; start_date := "2024-01-01";
              end_date := "2024-02-01" |} _
           [HistoryCall "brk.b" "2024-01-01" "2024-02-01"]).
  vm_compute. reflexivity.
Defined.

Lemma empty_series_response_witness :
  serve (get_company_analysis (history_of []) Pandas.NoFill plain request_ok)
  = (JSONError 404 "Company symbol AAPL not found",
     [HistoryCall "AAPL" "2024-01-01" "2024-02-01"]).
Proof.
  apply (empty_series_response (history_of []) Pandas.NoFill plain request_ok
           (2024, 1, 1)%Z (2024, 2, 1)%Z); reflexivity.
Defined.

Lemma reversed_range_response_witness :
  serve (get_company_analysis (history_of [1%float]) Pandas.NoFill plain
           request_reversed)
  = (JSONError 500
       "Error performing analysis: 400: End date cannot be before start date",
     []).
Proof.
  apply (proj1 (reversed_range_response (history_of [1%float]) Pandas.NoFill
                  plain request_reversed (2024, 2, 1)%Z (2024, 1, 1)%Z
                  eq_refl eq_refl eq_refl eq_refl eq_refl)).
Defined.

(** C3: a frame whose only close is missing passes every guard of
    lines 83-99 and puts NaN into [recent_high] and [recent_low]; with
    the closes 0 and 1 the single return is infinite and the volatility
    is NaN. *)
Theorem nan_reaches_the_metrics :
  (exists body log,
      serve (get_company_analysis (history_of [nan]) Pandas.NoFill plain
               request_ok)
      = (Success body, log)
      /\ Schema.metrics body = metrics_of plain Pandas.NoFill [nan]
      /\ Schema.recent_high (Schema.metrics body) = Some nan
      /\ Schema.recent_low (Schema.metrics body) = Some nan
      /\ Spec.all_finite_or_missing (Schema.metrics body) = false)
  /\ Schema.volatility (metrics_of plain Pandas.NoFill from_zero) = Some nan
  /\ Spec.all_finite_or_missing (metrics_of plain Pandas.NoFill from_zero)
     = false.
Proof.
  split.
  - do 2 eexists. split; [vm_compute; reflexivity|].
    repeat split; vm_compute; reflexivity.
  - split; vm_compute; reflexivity.
Qed.

End ServiceExamples.

(** ** Validation failures, error mapping and provider calls *)
Module HandlerFacts.
Import Http Provider Services HandlerLogic ServicesFacts.

Lemma raises_raise {A : Type} (P : exception -> Prop) (e : exception) :
  P e -> raises P (@raise A e).
Proof. intros H log e' log' E. injection E as <- _. exact H. Qed.

Lemma raises_try {A : Type} (P : exception -> Prop) (body : M A)
      (handler : exception -> M A) :
  (forall e, raises P (handler e)) -> raises P (try_except body handler).
Proof.
  intros Hh log e log' E. unfold try_except in E.
  destruct (body log) as [[a|e0] l]; [discriminate E|].
  exact (Hh e0 l e log' E).
Qed.

Lemma documented_400 (detail : string) :
  documented_error (HTTPException 400 detail).
Proof. exists 400, detail. auto. Qed.
Lemma documented_404 (detail : string) :
  documented_error (HTTPException 404 detail).
Proof. exists 404, detail. auto. Qed.
Lemma documented_500 (detail : string) :
  documented_error (HTTPException 500 detail).
Proof. exists 500, detail. auto. Qed.

(** Walking through a handler: everything raised is raised before the
    [try] block or by its [except] clause. *)
Ltac walk_raises :=
  repeat first
    [ apply raises_try
    | apply raises_raise;
      first [apply documented_400 | apply documented_404 | apply documented_500]
    | match goal with
      | |- raises _ (if ?c then _ else _) => destruct c
      | |- forall _, _ => intro
      end ].

Lemma serve_status {B : Type} (handler : M B) :
  raises documented_error handler ->
  In (status (fst (serve handler))) [200; 400; 404; 500].
Proof.
  intros H. unfold serve.
  destruct (handler []) as [[b|e] l] eqn:E.
  - simpl. auto.
  - destruct (H [] e l E) as (c & d & He & Hc). subst e.
    destruct Hc as [Hc|[Hc|Hc]]; subst c; simpl; auto.
Qed.

Lemma validate_symbol_empty : validate_symbol "" = false.
Proof. reflexivity. Qed.

Lemma invalid_symbol_guard (sym : string) :
  validate_symbol sym = false ->
  String.eqb sym "" || negb (validate_symbol sym) = true.
Proof. intros ->. apply orb_true_r. Qed.

Lemma valid_symbol_guard (sym : string) :
  validate_symbol sym = true ->
  String.eqb sym "" || negb (validate_symbol sym) = false.
Proof.
  intros H. rewrite H. destruct (String.eqb_spec sym ""); [|reflexivity].
  subst. discriminate H.
Qed.

Lemma symbol_guard (sym : string) :
  String.eqb sym "" || negb (validate_symbol sym) = negb (validate_symbol sym).
Proof.
  destruct (String.eqb_spec sym "") as [->|_]; reflexivity.
Qed.

Lemma date_ltb_irrefl (d : Strptime.date) : Strptime.date_ltb d d = false.
Proof.
  destruct d as [[y m] dd]. unfold Strptime.date_ltb.
  rewrite !Z.ltb_irrefl, !Z.eqb_refl. reflexivity.
Qed.

Section WithProvider.
Variable history : string -> string -> string -> result DataFrame.
Variable info : string -> result Info.
Variable fill : Pandas.fill_method.
Variable float_str : float -> string.
Variable py_round2 : float -> float.

(** X1: an invalid symbol is answered with 400 by each of the four
    services, before any call to the provider. *)
Theorem invalid_symbol_rejected :
  (forall request, validate_symbol (symbol request) = false ->
     serve (get_company_analysis history fill float_str request)
     = (JSONError 400 "Invalid company symbol", [])
     /\ serve (get_historical_stock_data history request)
        = (JSONError 400 "Invalid company symbol", []))
  /\ (forall sym, validate_symbol sym = false ->
        serve (get_company_info info sym)
        = (JSONError 400 "Invalid company symbol", [])
        /\ serve (get_stock_data info py_round2 sym)
           = (JSONError 400 "Invalid company symbol", [])).
Proof.
  split.
  - intros request H.
    unfold serve, get_company_analysis, get_historical_stock_data.
    rewrite (invalid_symbol_guard _ H). split; reflexivity.
  - intros sym H. unfold serve, get_company_info, get_stock_data.
    rewrite (invalid_symbol_guard _ H). split; reflexivity.
Qed.

(** X2: with a valid symbol, a start or end date that [strptime] does not
    parse is answered with 400 by the analysis and the historical-data
    service, before any call to the provider. *)
Theorem invalid_date_rejected (request : AnalysisRequest) :
  validate_symbol (symbol request) = true ->
  validate_date (start_date request) = false
  \/ validate_date (end_date request) = false ->
  serve (get_company_analysis history fill float_str request)
  = (JSONError 400 "Invalid date format. Use YYYY-MM-DD", [])
  /\ serve (get_historical_stock_data history request)
     = (JSONError 400 "Invalid date format. Use YYYY-MM-DD", []).
Proof.
  intros Hsym Hd.
  assert (G : negb (validate_date (start_date request))
              || negb (validate_date (end_date request)) = true).
  { destruct Hd as [->| ->]; [reflexivity | apply orb_true_r]. }
  unfold serve, get_company_analysis, get_historical_stock_data.
  rewrite (valid_symbol_guard _ Hsym), G. split; reflexivity.
Qed.

(** X3: when the provider raises, the [except] clause answers 404 with
    "Company symbol ... not found" if the exception's message contains
    "404", and otherwise 500 with the message appended to the service's
    prefix; one provider call has been made. *)
Theorem provider_error_mapping :
  (forall request start end_ e,
      validate_symbol (symbol request) = true ->
      Strptime.strptime (start_date request) = Some start ->
      Strptime.strptime (end_date request) = Some end_ ->
      Strptime.date_ltb end_ start = false ->
      history (symbol request) (start_date request) (end_date request)
      = Raise e ->
      serve (get_company_analysis history fill float_str request)
      = (if PyStr.contains "404" (str e)
         then JSONError 404
                ("Company symbol " ++ symbol request ++ " not found")
         else JSONError 500 ("Error performing analysis: " ++ str e),
         [HistoryCall (symbol request) (start_date request)
            (end_date request)])
      /\ serve (get_historical_stock_data history request)
         = (if PyStr.contains "404" (str e)
            then JSONError 404
                   ("Company symbol " ++ symbol request ++ " not found")
            else JSONError 500 ("Error retrieving historical data: " ++ str e),
            [HistoryCall (symbol request) (start_date request)
               (end_date request)]))
  /\ (forall sym e,
      validate_symbol sym = true -> info sym = Raise e ->
      serve (get_company_info info sym)
      = (if PyStr.contains "404" (str e)
         then JSONError 404 ("Company symbol " ++ sym ++ " not found")
         else JSONError 500 ("Error retrieving company data: " ++ str e),
         [InfoCall sym])
      /\ serve (get_stock_data info py_round2 sym)
         = (if PyStr.contains "404" (str e)
            then JSONError 404 ("Company symbol " ++ sym ++ " not found")
            else JSONError 500 ("Error retrieving stock data: " ++ str e),
            [InfoCall sym])).
Proof.
  split.
  - intros request start end_ e Hsym Hs He Hlt Hh.
    unfold serve, get_company_analysis, get_historical_stock_data.
    rewrite (valid_symbol_guard _ Hsym), (validate_date_of_strptime _ _ Hs),
      (validate_date_of_strptime _ _ He).
    cbn [negb orb].
    unfold try_except, bind, strptime, ticker_history.
    rewrite Hs, He. unfold ret. rewrite Hlt, Hh. cbn [app].
    destruct (PyStr.contains "404" (str e)); split; reflexivity.
  - intros sym e Hsym Hi.
    unfold serve, get_company_info, get_stock_data.
    rewrite (valid_symbol_guard _ Hsym).
    unfold try_except, bind, ticker_info. rewrite Hi. cbn [app].
    destruct (PyStr.contains "404" (str e)); split; reflexivity.
Qed.

(** X4: whatever the request and the provider do, an error answered by any
    of the four services is an [HTTPException] with status 400, 404 or
    500; no other exception escapes a handler, and every response has
    status 200, 400, 404 or 500. *)
Theorem only_documented_errors :
  (forall request,
      raises documented_error
        (get_company_analysis history fill float_str request)
      /\ In (status (fst (serve (get_company_analysis history fill float_str
                                   request)))) [200; 400; 404; 500])
  /\ (forall request,
      raises documented_error (get_historical_stock_data history request)
      /\ In (status (fst (serve (get_historical_stock_data history request))))
            [200; 400; 404; 500])
  /\ (forall sym,
      raises documented_error (get_company_info info sym)
      /\ In (status (fst (serve (get_company_info info sym))))
            [200; 400; 404; 500])
  /\ (forall sym,
      raises documented_error (get_stock_data info py_round2 sym)
      /\ In (status (fst (serve (get_stock_data info py_round2 sym))))
            [200; 400; 404; 500]).
Proof.
  assert (H1 : forall request, raises documented_error
                 (get_company_analysis history fill float_str request))
    by (intros; unfold get_company_analysis; walk_raises).
  assert (H2 : forall request, raises documented_error
                 (get_historical_stock_data history request))
    by (intros; unfold get_historical_stock_data; walk_raises).
  assert (H3 : forall sym, raises documented_error (get_company_info info sym))
    by (intros; unfold get_company_info; walk_raises).
  assert (H4 : forall sym, raises documented_error
                 (get_stock_data info py_round2 sym))
    by (intros; unfold get_stock_data; walk_raises).
  repeat split; auto using serve_status.
Qed.

(** Case analysis on the conditions a handler tests, innermost first. *)
Ltac crack :=
  repeat (cbv beta iota;
          match goal with
          | |- context [match ?x with _ => _ end] =>
              lazymatch x with
              | context [match _ with _ => _ end] => fail
              | _ => destruct x eqn:?
              end
          end).

Ltac open_handler :=
  unfold serve, get_company_analysis, get_historical_stock_data,
    get_company_info, get_stock_data, read_officers, strptime, iloc,
    ticker_history, ticker_info, passes_validation, validate_date;
  unfold try_except, bind, ret, raise, lift.

(** X5: the analysis and the historical-data service call the provider
    exactly once, with the request's symbol and date strings unchanged,
    when the request passes validation, and never otherwise. *)
Theorem history_called_iff_valid (request : AnalysisRequest) :
  let call := HistoryCall (symbol request) (start_date request)
                (end_date request) in
  snd (serve (get_company_analysis history fill float_str request))
  = (if passes_validation request then [call] else [])
  /\ snd (serve (get_historical_stock_data history request))
     = (if passes_validation request then [call] else []).
Proof.
  cbv zeta. split; open_handler; rewrite symbol_guard;
    destruct (validate_symbol (symbol request));
    try reflexivity;
    cbn [andb negb];
    destruct (Strptime.strptime (start_date request)) as [start|];
    destruct (Strptime.strptime (end_date request)) as [end_|];
    try reflexivity;
    cbn [negb orb];
    destruct (Strptime.date_ltb end_ start); try reflexivity;
    cbn [negb]; crack; reflexivity.
Qed.

(** X6: the information and the quote service call the provider only for
    a valid symbol, with the symbol unchanged: the quote service once, the
    information service once or, when the first read succeeds, twice. *)
Theorem info_called_iff_valid (sym : string) :
  snd (serve (get_stock_data info py_round2 sym))
  = (if validate_symbol sym then [InfoCall sym] else [])
  /\ snd (serve (get_company_info info sym))
     = (if validate_symbol sym
        then match info sym with
             | Ok _ => [InfoCall sym; InfoCall sym]
             | Raise _ => [InfoCall sym]
             end
        else []).
Proof.
  split; open_handler; rewrite symbol_guard;
    destruct (validate_symbol sym); try reflexivity;
    cbn [negb]; destruct (info sym) as [i|e]; crack; reflexivity.
Qed.

(** X7: two dates that denote the same day, however they are written, are
    not a reversed range: with a valid symbol the request passes
    validation and reaches the provider. *)
Theorem same_day_range_accepted (request : AnalysisRequest)
        (day : Strptime.date) :
  validate_symbol (symbol request) = true ->
  Strptime.strptime (start_date request) = Some day ->
  Strptime.strptime (end_date request) = Some day ->
  passes_validation request = true
  /\ snd (serve (get_company_analysis history fill float_str request))
     = [HistoryCall (symbol request) (start_date request) (end_date request)].
Proof.
  intros Hsym Hs He.
  assert (Hp : passes_validation request = true).
  { unfold passes_validation. now rewrite Hsym, Hs, He, date_ltb_irrefl. }
  split; [exact Hp|].
  rewrite (proj1 (history_called_iff_valid request)), Hp. reflexivity.
Qed.

(** X8: with a request that passes validation and a non-empty frame, the
    analysis service succeeds (the indexing of the close column cannot
    fail) and answers the upper-cased symbol with the metrics and insights
    of the frame's Close column. *)
Theorem analysis_success (request : AnalysisRequest) (hist : DataFrame) :
  passes_validation request = true ->
  history (symbol request) (start_date request) (end_date request) = Ok hist ->
  hist <> [] ->
  serve (get_company_analysis history fill float_str request)
  = (Success
       {| Schema.analysis_symbol := PyStr.upper (symbol request);
          Schema.metrics := metrics_of float_str fill (map Close hist);
          Schema.insights := insights_of float_str fill (map Close hist) |},
     [HistoryCall (symbol request) (start_date request) (end_date request)]).
Proof.
  unfold passes_validation. intros Hp Hh Hne.
  apply andb_true_iff in Hp as [Hsym Hp].
  destruct (Strptime.strptime (start_date request)) as [start|] eqn:Hs;
    [|discriminate Hp].
  destruct (Strptime.strptime (end_date request)) as [end_|] eqn:He;
    [|discriminate Hp].
  apply negb_true_iff in Hp.
  open_handler. rewrite (valid_symbol_guard _ Hsym), Hs, He.
  cbn [negb orb]. cbv beta iota. rewrite Hp, Hh.
  destruct hist as [|row rows]; [congruence|].
  unfold metrics_of, insights_of.
  cbn [Pandas.empty map Analytics.iloc_first Analytics.iloc_last hd_error hd app].
  cbv beta iota.
  destruct (Analytics.analyse _ _ _ _ _) as [m i]. reflexivity.
Qed.








(** X10: for a valid symbol whose quote the provider returns, the quote
    service succeeds; prices and volume are passed through unchanged, and
    the percentage change is missing exactly when the current price or the
    previous close is missing or the previous close is zero. *)
Theorem stock_success (sym : string) (i : Info) :
  validate_symbol sym = true -> info sym = Ok i ->
  exists body,
    serve (get_stock_data info py_round2 sym) = (Success body, [InfoCall sym])
    /\ Schema.stock_symbol body = PyStr.upper sym
    /\ Schema.current_price body = regularMarketPrice i
    /\ Schema.previous_close body = regularMarketPreviousClose i
    /\ Schema.open_price body = regularMarketOpen i
    /\ Schema.high_price body = regularMarketDayHigh i
    /\ Schema.low_price body = regularMarketDayLow i
    /\ Schema.stock_volume body = regularMarketVolume i
    /\ Schema.market_state body = marketState i
    /\ (Schema.percentage_change body = None <->
        regularMarketPrice i = None
        \/ regularMarketPreviousClose i = None
        \/ exists p, regularMarketPreviousClose i = Some p
                     /\ (p =? 0)%float = true)
    /\ (forall c p,
          regularMarketPrice i = Some c ->
          regularMarketPreviousClose i = Some p -> (p =? 0)%float = false ->
          Schema.percentage_change body
          = Some (py_round2 (((c - p) / p) * 100)%float)).
Proof.
  intros Hsym Hi. eexists. split.
  - open_handler. rewrite (valid_symbol_guard _ Hsym), Hi. reflexivity.
  - cbn. repeat split; unfold percentage_change;
      try (intros c p -> -> ->; reflexivity).
    + destruct (regularMarketPrice i) as [c|]; [|auto].
      destruct (regularMarketPreviousClose i) as [p|]; [|auto].
      destruct (p =? 0)%float eqn:E; simpl; [eauto|discriminate].
    + intros [H|[H|(p & H & Hz)]]; rewrite H; try reflexivity.
      * destruct (regularMarketPrice i); reflexivity.
      * destruct (regularMarketPrice i); [|reflexivity].
        now rewrite Hz.
Qed.

(** X11: for a valid symbol whose information the provider returns, the
    information service succeeds; the four text fields are passed
    through, and the officers are those listed, in order; an absent or
    null list of officers gives an empty list, not an error. *)
Theorem company_info_success (sym : string) (i : Info) :
  validate_symbol sym = true -> info sym = Ok i ->
  serve (get_company_info info sym)
  = (Success
       {| Schema.info_symbol := PyStr.upper sym;
          Schema.company_name := longName i;
          Schema.business_summary := longBusinessSummary i;
          Schema.industry := industry i;
          Schema.sector := sector i;
          Schema.officers := Some (officers_of (companyOfficers i)) |},
     [InfoCall sym; InfoCall sym]).
Proof.
  intros Hsym Hi. open_handler.
  rewrite (valid_symbol_guard _ Hsym), Hi. cbv beta iota.
  destruct (companyOfficers i); reflexivity.
Qed.

(** X19: with a request that passes validation and an empty frame from the
    provider, the historical-data service answers 404 with "Company symbol
    ... not found": the message raised for the empty frame is replaced in
    the [except] clause, as in the analysis service. *)
Theorem historical_empty_response (request : AnalysisRequest) :
  passes_validation request = true ->
  history (symbol request) (start_date request) (end_date request) = Ok [] ->
  serve (get_historical_stock_data history request)
  = (JSONError 404 ("Company symbol " ++ symbol request ++ " not found"),
     [HistoryCall (symbol request) (start_date request) (end_date request)]).
Proof.
  unfold passes_validation. intros Hp Hh.
  apply andb_true_iff in Hp as [Hsym Hp].
  destruct (Strptime.strptime (start_date request)) as [start|] eqn:Hs;
    [|discriminate Hp].
  destruct (Strptime.strptime (end_date request)) as [end_|] eqn:He;
    [|discriminate Hp].
  apply negb_true_iff in Hp.
  open_handler. rewrite (valid_symbol_guard _ Hsym), Hs, He.
  cbn [negb orb]. cbv beta iota. rewrite Hp, Hh.
  cbn [Pandas.empty app str].
  change (PyStr.str_of_Z 404) with "404".
  rewrite contains_prefix. reflexivity.
Qed.

End WithProvider.

End HandlerFacts.

(** ** Order facts on [float64] *)
Module FloatOrder.
Import Pandas FloatFacts HandlerLogic.
Local Open Scope float_scope.

Lemma SFcompare_Lt_trans (f g h : spec_float) :
  SFcompare f g = Some Lt -> SFcompare g h = Some Lt ->
  SFcompare f h = Some Lt.
Proof.
  destruct f as [s1|s1| |s1 m1 e1], g as [s2|s2| |s2 m2 e2],
           h as [s3|s3| |s3 m3 e3];
    lazy beta iota delta [SFcompare];
    try discriminate;
    try (destruct s1; try discriminate);
    try (destruct s2; try discriminate);
    try (destruct s3; try discriminate);
    try reflexivity;
    change (Pos.compare_cont Eq m1 m2) with (Pos.compare m1 m2);
    change (Pos.compare_cont Eq m2 m3) with (Pos.compare m2 m3);
    change (Pos.compare_cont Eq m1 m3) with (Pos.compare m1 m3);
    destruct (Z.compare_spec e1 e2); try discriminate;
    destruct (Z.compare_spec e2 e3); try discriminate;
    destruct (Z.compare_spec e1 e3); try lia; try reflexivity;
    destruct (Pos.compare_spec m1 m2); try discriminate;
    destruct (Pos.compare_spec m2 m3); try discriminate;
    destruct (Pos.compare_spec m1 m3); try lia; try reflexivity;
    try discriminate.
Qed.

(** [<] is transitive and irreflexive. *)
Lemma ltb_trans (a b c : float) :
  (a <? b) = true -> (b <? c) = true -> (a <? c) = true.
Proof.
  rewrite !ltb_spec. unfold SFltb. intros H1 H2.
  destruct (SFcompare (Prim2SF a) (Prim2SF b)) as [[]|] eqn:E1;
    try discriminate.
  destruct (SFcompare (Prim2SF b) (Prim2SF c)) as [[]|] eqn:E2;
    try discriminate.
  now rewrite (SFcompare_Lt_trans _ _ _ E1 E2).
Qed.

Lemma ltb_irrefl (a : float) : (a <? a) = false.
Proof.
  destruct (a <? a) eqn:E; [|reflexivity].
  now rewrite (ltb_antisym a a E) in E.
Qed.

Lemma below_15_not_above_30 (v : float) :
  (v <? 15) = true -> (30 <? v) = false.
Proof.
  intros H. destruct (30 <? v) eqn:E; [|reflexivity].
  pose proof (ltb_trans 30 v 15 E H) as F. vm_compute in F. discriminate F.
Qed.

Ltac compare_cases :=
  repeat match goal with
         | |- context [Pos.compare_cont Eq ?a ?b] =>
             change (Pos.compare_cont Eq a b) with (Pos.compare a b)
         end;
  repeat match goal with
         | |- context [Z.compare ?a ?b] => destruct (Z.compare_spec a b)
         end;
  repeat match goal with
         | |- context [Pos.compare ?a ?b] => destruct (Pos.compare_spec a b)
         end.

(** [<] is a strict weak order on the present values: whatever lies
    between cannot be skipped. *)
Lemma SFcompare_Lt_split (f g h : spec_float) :
  g <> S754_nan -> SFcompare f h = Some Lt ->
  SFcompare f g = Some Lt \/ SFcompare g h = Some Lt.
Proof.
  intros Hg.
  destruct f as [s1|s1| |s1 m1 e1], g as [s2|s2| |s2 m2 e2],
           h as [s3|s3| |s3 m3 e3];
    try congruence; clear Hg;
    lazy beta iota delta [SFcompare];
    try discriminate;
    try (destruct s1); try (destruct s2); try (destruct s3);
    try discriminate; auto;
    compare_cases; simpl; intros HLT;
    first [ discriminate HLT | left; reflexivity | right; reflexivity | lia ].
Qed.

Lemma present_spec (x : float) : isna x = false -> Prim2SF x <> S754_nan.
Proof.
  unfold isna. rewrite eqb_spec. intros H E. rewrite E in H. discriminate H.
Qed.

(** [<=] is transitive through a present value. *)
Lemma fle_trans (a b c : float) :
  isna b = false -> fle a b -> fle b c -> fle a c.
Proof.
  unfold fle. intros Hb Hab Hbc.
  destruct (c <? a) eqn:E; [|reflexivity].
  revert Hab Hbc E. rewrite !ltb_spec. unfold SFltb. intros Hab Hbc E.
  destruct (SFcompare (Prim2SF c) (Prim2SF a)) as [[]|] eqn:Eca;
    try discriminate E.
  destruct (SFcompare_Lt_split _ (Prim2SF b) _ (present_spec b Hb) Eca)
    as [H|H]; rewrite H in *; discriminate.
Qed.

End FloatOrder.

(** ** More on the analytics transform *)
Module AnalyticsMore.
Import Pandas FloatFacts AnalyticsFacts FloatOrder HandlerLogic.
Local Open Scope float_scope.

Lemma fmax_cases (a b : float) : fmax a b = a \/ fmax a b = b.
Proof. unfold fmax. destruct (a <? b); auto. Qed.

Lemma fmin_cases (a b : float) : fmin a b = a \/ fmin a b = b.
Proof. unfold fmin. destruct (b <? a); auto. Qed.

Lemma fmax_upper (a b : float) : fle a (fmax a b) /\ fle b (fmax a b).
Proof.
  unfold fle, fmax. destruct (a <? b) eqn:E.
  - split; [now apply ltb_antisym | apply ltb_irrefl].
  - split; [apply ltb_irrefl | exact E].
Qed.

Lemma fmin_lower (a b : float) : fle (fmin a b) a /\ fle (fmin a b) b.
Proof.
  unfold fle, fmin. destruct (b <? a) eqn:E.
  - split; [now apply ltb_antisym | apply ltb_irrefl].
  - split; [apply ltb_irrefl | exact E].
Qed.

(** The largest of some present values is one of them and bounds them
    all. *)
Lemma fold_fmax_spec (r : Series) (x : float) :
  Forall (fun c => isna c = false) (x :: r) ->
  In (fold_left fmax r x) (x :: r)
  /\ forall y, In y (x :: r) -> fle y (fold_left fmax r x).
Proof.
  revert x. induction r as [|z r IH]; intros x Hp.
  - simpl. split; [auto|]. intros y [<-|[]]. apply ltb_irrefl.
  - cbn [fold_left].
    inversion Hp as [|? ? Hx Hr]; subst. inversion Hr as [|? ? Hz Hr']; subst.
    assert (Hm : isna (fmax x z) = false)
      by (destruct (fmax_cases x z) as [->| ->]; assumption).
    destruct (IH (fmax x z) (Forall_cons _ Hm Hr')) as [Hin Hle]. split.
    + destruct Hin as [Hin|Hin]; [|right; right; exact Hin].
      rewrite <- Hin. destruct (fmax_cases x z) as [->| ->]; simpl; auto.
    + intros y Hy.
      pose proof (Hle (fmax x z) (or_introl eq_refl)) as Htop.
      destruct (fmax_upper x z) as [Hx' Hz'].
      destruct Hy as [<-|[<-|Hy]].
      * exact (fle_trans _ _ _ Hm Hx' Htop).
      * exact (fle_trans _ _ _ Hm Hz' Htop).
      * apply Hle. right. exact Hy.
Qed.

Lemma fold_fmin_spec (r : Series) (x : float) :
  Forall (fun c => isna c = false) (x :: r) ->
  In (fold_left fmin r x) (x :: r)
  /\ forall y, In y (x :: r) -> fle (fold_left fmin r x) y.
Proof.
  revert x. induction r as [|z r IH]; intros x Hp.
  - simpl. split; [auto|]. intros y [<-|[]]. apply ltb_irrefl.
  - cbn [fold_left].
    inversion Hp as [|? ? Hx Hr]; subst. inversion Hr as [|? ? Hz Hr']; subst.
    assert (Hm : isna (fmin x z) = false)
      by (destruct (fmin_cases x z) as [->| ->]; assumption).
    destruct (IH (fmin x z) (Forall_cons _ Hm Hr')) as [Hin Hle]. split.
    + destruct Hin as [Hin|Hin]; [|right; right; exact Hin].
      rewrite <- Hin. destruct (fmin_cases x z) as [->| ->]; simpl; auto.
    + intros y Hy.
      pose proof (Hle (fmin x z) (or_introl eq_refl)) as Htop.
      destruct (fmin_lower x z) as [Hx' Hz'].
      destruct Hy as [<-|[<-|Hy]].
      * exact (fle_trans _ _ _ Hm Htop Hx').
      * exact (fle_trans _ _ _ Hm Htop Hz').
      * apply Hle. right. exact Hy.
Qed.

Lemma dropna_present (s : Series) :
  Forall (fun c => isna c = false) (dropna s).
Proof.
  apply Forall_forall. intros c Hc. unfold dropna in Hc.
  apply filter_In in Hc as [_ Hc]. now apply negb_true_iff in Hc.
Qed.

End AnalyticsMore.

Section MoreMetrics.
Import Pandas FloatFacts AnalyticsFacts FloatOrder AnalyticsMore HandlerLogic.
Local Open Scope float_scope.

Variable float_str : float -> string.

(** X12: [recent_high] is the largest and [recent_low] the smallest present
    close, rounded to 2 decimals: each is the rounding of a present close
    that no present close exceeds (resp. falls below); in particular the
    low, unrounded, does not exceed the high. *)
Theorem recent_high_low_spec (fill : fill_method) (closes : Series) :
  dropna closes <> [] ->
  let m := metrics_of float_str fill closes in
  exists high low,
    Schema.recent_high m = Some (round2 high)
    /\ Schema.recent_low m = Some (round2 low)
    /\ In high (dropna closes) /\ In low (dropna closes)
    /\ (forall c, In c (dropna closes) -> fle c high /\ fle low c)
    /\ fle low high.
Proof.
  intros Hne m. exists (max closes), (min closes).
  assert (Hc : closes <> []) by (intros ->; apply Hne; reflexivity).
  pose proof (dropna_present closes) as Hp.
  unfold m, metrics_of, Analytics.analyse.
  cbn [fst Schema.recent_high Schema.recent_low].
  unfold Analytics.recent_high, Analytics.recent_low, max, min.
  destruct closes as [|c0 rest]; [congruence|]. cbn [empty negb].
  destruct (dropna (c0 :: rest)) as [|x r]; [congruence|].
  destruct (fold_fmax_spec r x Hp) as [Hin Hub].
  destruct (fold_fmin_spec r x Hp) as [Hin' Hlb].
  repeat split; auto.
Qed.

(** X13: for a series of at least [w] prices the moving average is
    present, and it is NaN as soon as one of the trailing [w] closes,
    the window that ends at the last observation, is missing or
    infinite. *)
Theorem sma_missing_in_window (w : nat) (closes : Series) :
  (1 <= w <= List.length closes)%nat ->
  (exists value, Analytics.sma w closes = Some value)
  /\ (Exists (fun c => isna c = true \/ isinf c = true)
             (skipn (List.length closes - w) closes) ->
      Analytics.sma w closes = Some nan).
Proof.
  intros Hw. split.
  - destruct (Analytics.sma w closes) as [value|] eqn:E; [now exists value|].
    apply sma_missing_iff in E. lia.
  - intros Hgap. now apply sma_window_gap.
Qed.

(** X14: the volatility label is "High" above 30, "Low" below 15 and
    "Moderate" otherwise, also when the volatility is missing; the bounds
    30 and 15 themselves are "Moderate". *)
Theorem volatility_assessment_spec :
  Analytics.volatility_assessment None = "Moderate"%string
  /\ (forall v, (30 <? v) = true ->
                Analytics.volatility_assessment (Some v) = "High"%string)
  /\ (forall v, (v <? 15) = true ->
                Analytics.volatility_assessment (Some v) = "Low"%string)
  /\ (forall v, (30 <? v) = false -> (v <? 15) = false ->
                Analytics.volatility_assessment (Some v) = "Moderate"%string)
  /\ Analytics.volatility_assessment (Some 30) = "Moderate"%string
  /\ Analytics.volatility_assessment (Some 15) = "Moderate"%string
  /\ (forall fill closes,
        Schema.volatility_assessment (insights_of float_str fill closes)
        = Analytics.volatility_assessment
            (Schema.volatility (metrics_of float_str fill closes))).
Proof.
  split; [reflexivity|]. split; [|split; [|split]].
  - intros v H. simpl. now rewrite H.
  - intros v H. simpl. now rewrite (below_15_not_above_30 v H), H.
  - intros v H1 H2. simpl. now rewrite H1, H2.
  - repeat split; reflexivity.
Qed.

(** X15: the trend label is always one of "Neutral", "Bullish", "Bearish",
    "Bullish (SMA crossover)" and "Bearish (SMA crossover)", and a
    crossover label is only given to a series of at least 200 points. *)
Theorem trend_labels_spec (fill : fill_method) (closes : Series) :
  let label := Schema.trend_direction (insights_of float_str fill closes) in
  In label trend_labels
  /\ (label = "Bullish (SMA crossover)"%string
      \/ label = "Bearish (SMA crossover)"%string ->
      (200 <= List.length closes)%nat).
Proof.
  cbv zeta. unfold insights_of, Analytics.analyse.
  cbn [snd Schema.trend_direction]. unfold Analytics.trend_direction.
  set (percent := Analytics.price_change_percent _ _ _).
  assert (Hbase : Analytics.trend_from_price_change percent = "Neutral"%string
                  \/ Analytics.trend_from_price_change percent = "Bullish"%string
                  \/ Analytics.trend_from_price_change percent = "Bearish"%string).
  { destruct percent as [p|]; simpl; [|auto].
    destruct (5 <? p); [auto|]. destruct (p <? -5); auto. }
  destruct (Nat.leb_spec 200 (List.length closes)) as [H200|H200].
  - split; [|auto].
    destruct (Analytics.sma_50 closes) as [a|],
             (Analytics.sma_200 closes) as [b|];
      try destruct (b <? a); try destruct (a <? b);
      destruct Hbase as [-> | [-> | ->]]; simpl; auto 6.
  - assert (E : Analytics.sma_200 closes = None)
      by (apply sma_missing_iff; exact H200).
    rewrite E. split.
    + destruct (Analytics.sma_50 closes);
        destruct Hbase as [-> | [-> | ->]]; simpl; auto.
    + intros H. exfalso.
      destruct (Analytics.sma_50 closes);
        destruct Hbase as [Hb|[Hb|Hb]]; rewrite Hb in H;
        destruct H as [H|H]; discriminate H.
Qed.

Lemma endswith_app (a suffix : string) :
  endswith suffix (a ++ suffix) = true.
Proof.
  induction a as [|c a IH]; cbn [append].
  - destruct suffix; cbn [endswith]; [reflexivity|].
    now rewrite String.eqb_refl.
  - cbn [endswith]. rewrite IH. apply orb_true_r.
Qed.

Lemma narrative_shape (trend assessment : string) (high low : option float) :
  exists rest,
    Analytics.investment_considerations float_str trend assessment high low
    = (("The stock exhibits a " ++ PyStr.lower trend ++ " trend with "
         ++ PyStr.lower assessment ++ " volatility. ")
        ++ rest ++ "Always consult a financial advisor.")%string.
Proof.
  unfold Analytics.investment_considerations.
  exists ("Consider monitoring for "
            ++ (if PyStr.contains "Bullish" trend then "entry" else "exit")
            ++ " points near recent "
            ++ (if PyStr.contains "Bullish" trend then "highs" else "lows")
            ++ " " ++ "(" ++ Analytics.or_na float_str high ++ " or "
            ++ Analytics.or_na float_str low ++ "). "
            ++ (if String.eqb assessment "Low"
                then "Long-term investors may find this stable"
                else if String.eqb assessment "High"
                then "Short-term traders may capitalize on price swings"
                else "Balance risk with potential returns") ++ ". ")%string.
  cbv zeta. rewrite !DateTextFacts.append_assoc. reflexivity.
Qed.

(** X16: the narrative always starts by naming the trend label and the
    volatility label, both in lower case, and always ends with the advice
    to consult a financial advisor. *)
Theorem narrative_spec (fill : fill_method) (closes : Series) :
  let i := insights_of float_str fill closes in
  let text := Schema.investment_considerations i in
  PyStr.startswith
    ("The stock exhibits a " ++ PyStr.lower (Schema.trend_direction i)
       ++ " trend with " ++ PyStr.lower (Schema.volatility_assessment i)
       ++ " volatility. ") text = true
  /\ endswith "Always consult a financial advisor." text = true.
Proof.
  cbv zeta. unfold insights_of, Analytics.analyse.
  cbn [snd Schema.trend_direction Schema.volatility_assessment
         Schema.investment_considerations].
  match goal with
  | |- context [Analytics.investment_considerations _ ?t ?a ?h ?l] =>
      destruct (narrative_shape t a h l) as [rest ->]
  end.
  split.
  - apply ServicesFacts.startswith_app.
  - rewrite <- DateTextFacts.append_assoc. apply endswith_app.
Qed.

End MoreMetrics.

(** ** Symbols and dates that come back in responses *)
Section EchoedValues.
Import PyStr PyStrFacts Services HandlerLogic DateTextFacts.

Lemma upper_char_alnum (c : ascii) :
  isalnum_char (upper_char c) = isalnum_char c.
Proof. each_char c; reflexivity. Qed.

Lemma upper_char_dot (c : ascii) :
  Ascii.eqb (upper_char c) "." = Ascii.eqb c ".".
Proof. each_char c; reflexivity. Qed.

Lemma upper_char_idem (c : ascii) : upper_char (upper_char c) = upper_char c.
Proof. each_char c; reflexivity. Qed.

Lemma isalnum_upper (s : string) : isalnum (upper s) = isalnum s.
Proof.
  assert (H : forall t, all_chars isalnum_char (upper t)
                        = all_chars isalnum_char t).
  { induction t as [|c t IH]; [reflexivity|].
    cbn [upper map_chars all_chars]. fold (upper t).
    now rewrite upper_char_alnum, IH. }
  destruct s as [|c s]; [reflexivity|].
  unfold isalnum. cbn [upper map_chars]. fold (upper s).
  exact (H (String c s)).
Qed.

Lemma has_dot_upper (s : string) : has_char "." (upper s) = has_char "." s.
Proof.
  induction s as [|c s IH]; [reflexivity|].
  cbn [upper map_chars has_char]. fold (upper s).
  now rewrite upper_char_dot, IH.
Qed.

Lemma split_upper (s : string) :
  split "." (upper s) = map upper (split "." s).
Proof.
  induction s as [|c s IH]; [reflexivity|].
  cbn [upper map_chars split]. fold (upper s).
  rewrite upper_char_dot, IH.
  destruct (Ascii.eqb c "."); [reflexivity|].
  destruct (split "." s); reflexivity.
Qed.

(** X17: upper-casing does not change whether a symbol is valid, and
    upper-casing twice is the same as once: the symbol echoed in a
    response is accepted by [validate_symbol] whenever the request's was,
    and is echoed unchanged if sent again. *)
Theorem upper_symbol_spec (sym : string) :
  validate_symbol (upper sym) = validate_symbol sym
  /\ upper (upper sym) = upper sym.
Proof.
  split.
  - unfold validate_symbol.
    rewrite isalnum_upper, has_dot_upper, split_upper. f_equal. f_equal.
    induction (split "." sym) as [|p ps IH]; [reflexivity|].
    cbn [map forallb]. now rewrite isalnum_upper, IH.
  - induction sym as [|c s IH]; [reflexivity|].
    cbn [upper map_chars]. fold (upper s). fold (upper (upper s)).
    now rewrite upper_char_idem, IH.
Qed.

Lemma in_Z_range (lo hi n : Z) : lo <= n <= hi -> In n (Z_range lo hi).
Proof. apply range_cases. Qed.

Lemma year_four_digits (y : Z) :
  1000 <= y <= 9999 -> PyStr.str_of_Z y = Spec.four_digits y.
Proof.
  intros H.
  assert (A : forallb (fun k => String.eqb (PyStr.str_of_Z k)
                                  (Spec.four_digits k))
                      (Z_range 1000 9999) = true)
    by (vm_compute; reflexivity).
  rewrite forallb_forall in A.
  now apply String.eqb_eq, A, in_Z_range.
Qed.

Lemma zfill_two (n : Z) :
  1 <= n <= 31 -> zfill 2 n = Spec.two_digits n.
Proof.
  intros H.
  assert (A : forallb (fun k => String.eqb (zfill 2 k) (Spec.two_digits k))
                      (Z_range 1 31) = true)
    by (vm_compute; reflexivity).
  rewrite forallb_forall in A.
  now apply String.eqb_eq, A, in_Z_range.
Qed.

(** X18: a date written by [strftime] in a historical response (years 1000
    to 9999) has the zero-padded form YYYY-MM-DD, is accepted by
    [validate_date] and is parsed back by [strptime] to the same date. *)
Theorem strftime_round_trip (y m d : Z) :
  1000 <= y -> Spec.calendar_date y m d ->
  strftime (y, m, d) = Spec.padded_form y m d
  /\ Spec.matches_YYYY_MM_DD (strftime (y, m, d)) = true
  /\ Strptime.strptime (strftime (y, m, d)) = Some (y, m, d)
  /\ validate_date (strftime (y, m, d)) = true.
Proof.
  intros Hy Hcal. pose proof Hcal as (Hy' & Hm & Hd).
  pose proof (last_day_le_31 y m Hm) as H31.
  assert (E : strftime (y, m, d) = Spec.padded_form y m d).
  { unfold strftime, Spec.padded_form.
    now rewrite year_four_digits, !zfill_two by lia. }
  assert (P : Strptime.strptime (Spec.padded_form y m d) = Some (y, m, d)).
  { apply strptime_complete; [assumption|].
    apply in_date_texts. exists (Spec.two_digits m), (Spec.two_digits d).
    unfold Spec.month_texts, Spec.day_texts.
    destruct (m <? 10), (d <? 10); simpl; auto. }
  rewrite E. split; [reflexivity|]. split; [|split].
  - destruct (four_digits_digits y ltac:(lia))
      as (n1 & n2 & n3 & n4 & H1 & H2 & H3 & H4 & ->).
    destruct (four_digits_of n1 n2 n3 n4 H1 H2 H3 H4) as [_ Hf].
    unfold Spec.padded_form. rewrite Hf.
    unfold Spec.matches_YYYY_MM_DD, Spec.two_digits, Spec.one_digit.
    cbn [append chars list_ascii_of_string forallb].
    assert (Dm1 : 0 <= m / 10 <= 9) by (Z.div_mod_to_equations; lia).
    assert (Dm2 : 0 <= m mod 10 <= 9) by (Z.div_mod_to_equations; lia).
    assert (Dd1 : 0 <= d / 10 <= 9) by (Z.div_mod_to_equations; lia).
    assert (Dd2 : 0 <= d mod 10 <= 9) by (Z.div_mod_to_equations; lia).
    rewrite (proj1 (digit_char_ok _ H1)), (proj1 (digit_char_ok _ H2)),
      (proj1 (digit_char_ok _ H3)), (proj1 (digit_char_ok _ H4)),
      (proj1 (digit_char_ok _ Dm1)), (proj1 (digit_char_ok _ Dm2)),
      (proj1 (digit_char_ok _ Dd1)), (proj1 (digit_char_ok _ Dd2)).
    reflexivity.
  - exact P.
  - unfold validate_date. now rewrite P.
Qed.

Lemma empty_piece_after_sep (sep : ascii) (a t : string) (ps : list string) :
  split sep t = EmptyString :: ps ->
  In EmptyString (tl (split sep (a ++ String sep t))).
Proof.
  intros Ht. induction a as [|c a IH]; cbn [append split].
  - rewrite Ascii.eqb_refl. cbn [tl]. rewrite Ht. now left.
  - destruct (Ascii.eqb c sep).
    + cbn [tl]. destruct (split sep (a ++ String sep t)); [contradiction|].
      now right.
    + destruct (split sep (a ++ String sep t)); [contradiction|]. exact IH.
Qed.

Lemma empty_piece_rejected (s : string) :
  In EmptyString (split "." s) -> validate_symbol s = false.
Proof.
  intros Hin. unfold validate_symbol.
  assert (Hall : forallb isalnum (split "." s) = false).
  { destruct (forallb isalnum (split "." s)) eqn:E; [|reflexivity].
    rewrite forallb_forall in E. now specialize (E _ Hin). }
  rewrite Hall, andb_false_r, orb_false_r.
  destruct (isalnum s) eqn:E; [|reflexivity].
  apply isalnum_iff in E as [Hne Ha].
  rewrite (split_no_sep "." s (alnum_has_no_dot s Ha)) in Hin.
  destruct Hin as [->|[]]. congruence.
Qed.

(** X20: a symbol with an empty segment is rejected: one that starts with
    a dot, ends with a dot, or has two dots in a row. *)
Theorem empty_segment_rejected :
  (forall s, validate_symbol ("." ++ s) = false)
  /\ (forall s, validate_symbol (s ++ ".") = false)
  /\ (forall a b, validate_symbol (a ++ ".." ++ b) = false).
Proof.
  split; [|split].
  - intros s. apply empty_piece_rejected. cbn [append split].
    rewrite Ascii.eqb_refl. now left.
  - intros s. apply empty_piece_rejected.
    pose proof (empty_piece_after_sep "." s EmptyString [] eq_refl) as H.
    destruct (split "." (s ++ ".")); [contradiction|]. now right.
  - intros a b. apply empty_piece_rejected.
    assert (Hb : split "." (String "." b) = EmptyString :: split "." b).
    { cbn [split]. now rewrite Ascii.eqb_refl. }
    pose proof (empty_piece_after_sep "." a (String "." b) _ Hb) as H.
    change (a ++ ".." ++ b)%string with (a ++ String "." (String "." b))%string.
    destruct (split "." (a ++ String "." (String "." b))); [contradiction|].
    now right.
Qed.

End EchoedValues.

(** ** The properties above on concrete inputs *)
Section MoreWitnesses.
Import Http Provider Services Examples MoreExamples HandlerLogic HandlerFacts.
Local Open Scope float_scope.

Lemma invalid_symbol_rejected_witness :
  serve (get_company_analysis (history_of [1]) Pandas.NoFill plain
           request_bad_symbol)
  = (JSONError 400 "Invalid company symbol", []).
Proof.
  apply (proj1 (proj1 (invalid_symbol_rejected (history_of [1]) no_info
                         Pandas.NoFill plain (fun x => x))
                  request_bad_symbol eq_refl)).
Defined.

Lemma invalid_date_rejected_witness :
  serve (get_company_analysis (history_of [1]) Pandas.NoFill plain
           request_bad_date)
  = (JSONError 400 "Invalid date format. Use YYYY-MM-DD", []).
Proof.
  apply (proj1 (invalid_date_rejected (history_of [1]) Pandas.NoFill plain
                  request_bad_date eq_refl (or_introl eq_refl))).
Defined.

Lemma provider_error_mapping_witness :
  serve (get_company_analysis (failing_history "HTTP Error 404: Not Found")
           Pandas.NoFill plain request_ok)
  = (JSONError 404 "Company symbol AAPL not found",
     [HistoryCall "AAPL" "2024-01-01" "2024-02-01"])
  /\ serve (get_company_analysis (failing_history "connection reset")
              Pandas.NoFill plain request_ok)
     = (JSONError 500 "Error performing analysis: connection reset",
        [HistoryCall "AAPL" "2024-01-01" "2024-02-01"]).
Proof.
  split.
  - apply (proj1 (proj1 (provider_error_mapping
                           (failing_history "HTTP Error 404: Not Found")
                           no_info Pandas.NoFill plain (fun x => x))
                    request_ok (2024, 1, 1)%Z (2024, 2, 1)%Z
                    (ProviderError "HTTP Error 404: Not Found")
                    eq_refl eq_refl eq_refl eq_refl eq_refl)).
  - apply (proj1 (proj1 (provider_error_mapping
                           (failing_history "connection reset")
                           no_info Pandas.NoFill plain (fun x => x))
                    request_ok (2024, 1, 1)%Z (2024, 2, 1)%Z
                    (ProviderError "connection reset")
                    eq_refl eq_refl eq_refl eq_refl eq_refl)).
Defined.

Lemma same_day_range_accepted_witness :
  passes_validation request_same_day = true
  /\ snd (serve (get_company_analysis (history_of [1]) Pandas.NoFill plain
                   request_same_day))
     = [HistoryCall "AAPL" "2024-1-5" "2024-01-05"].
Proof.
  apply (same_day_range_accepted (history_of [1]) Pandas.NoFill plain
           request_same_day (2024, 1, 5)%Z); reflexivity.
Defined.

Lemma analysis_success_witness :
  serve (get_company_analysis (history_of small_move) Pandas.NoFill plain
           request_ok)
  = (Success
       {| Schema.analysis_symbol := PyStr.upper "AAPL";
          Schema.metrics :=
            metrics_of plain Pandas.NoFill
              (map Close (map row_of small_move));
          Schema.insights :=
            insights_of plain Pandas.NoFill
              (map Close (map row_of small_move)) |},
     [HistoryCall "AAPL" "2024-01-01" "2024-02-01"]).
Proof.
  apply (analysis_success (history_of small_move) Pandas.NoFill plain
           request_ok (map row_of small_move)).
  - reflexivity.
  - reflexivity.
  - discriminate.
Defined.


Lemma historical_empty_response_witness :
  serve (get_historical_stock_data (history_of []) request_ok)
  = (JSONError 404 "Company symbol AAPL not found",
     [HistoryCall "AAPL" "2024-01-01" "2024-02-01"]).
Proof.
  apply (historical_empty_response (history_of []) request_ok);
    reflexivity.
Defined.

Lemma stock_success_witness :
  exists body,
    serve (get_stock_data (info_of sample_info) (fun x => x) "aapl")
    = (Success body, [InfoCall "aapl"])
    /\ Schema.stock_symbol body = "AAPL"%string
    /\ Schema.percentage_change body = None.
Proof.
  destruct (stock_success (info_of sample_info) (fun x => x) "aapl"
              sample_info eq_refl eq_refl)
    as (body & E & Hs & _ & _ & _ & _ & _ & _ & _ & Hp & _).
  exists body. split; [exact E|]. split; [exact Hs|].
  apply Hp. right. right. exists 0. split; reflexivity.
Defined.

Lemma company_info_success_witness :
  serve (get_company_info (info_of sample_info) "aapl")
  = (Success
       {| Schema.info_symbol := "AAPL";
          Schema.company_name := Some "Apple Inc."%string;
          Schema.business_summary := None;
          Schema.industry := Some "Consumer Electronics"%string;
          Schema.sector := Some "Technology"%string;
          Schema.officers := Some [] |},
     [InfoCall "aapl"; InfoCall "aapl"]).
Proof.
  apply (company_info_success (info_of sample_info) "aapl" sample_info
           eq_refl eq_refl).
Defined.

Lemma recent_high_low_spec_witness :
  exists high low,
    Schema.recent_high (metrics_of plain Pandas.NoFill with_gap)
    = Some (Pandas.round2 high)
    /\ Schema.recent_low (metrics_of plain Pandas.NoFill with_gap)
       = Some (Pandas.round2 low)
    /\ fle low high.
Proof.
  destruct (recent_high_low_spec plain Pandas.NoFill with_gap
              ltac:(discriminate))
    as (high & low & Hh & Hl & _ & _ & _ & Hle).
  exists high, low. auto.
Defined.

Lemma sma_missing_in_window_witness :
  Analytics.sma 50 gap_in_window = Some nan.
Proof.
  apply (sma_missing_in_window 50 gap_in_window).
  - change (List.length gap_in_window) with 71%nat. lia.
  - change (List.length gap_in_window) with 71%nat.
    change (71 - 50)%nat with 21%nat.
    apply Exists_exists. exists nan. split; [|left; reflexivity].
    change (skipn 21 gap_in_window)
      with (repeat 1 9 ++ [nan] ++ repeat 2 40)%list.
    apply in_or_app. right. left. reflexivity.
Defined.

Lemma volatility_assessment_spec_witness :
  Analytics.volatility_assessment (Some 45) = "High"%string
  /\ Analytics.volatility_assessment (Some 7.5) = "Low"%string.
Proof.
  destruct (volatility_assessment_spec plain) as (_ & Hh & Hl & _).
  split; [apply Hh | apply Hl]; reflexivity.
Defined.

Lemma trend_labels_spec_witness :
  Schema.trend_direction (insights_of plain Pandas.NoFill dip_and_rise)
  = "Bullish (SMA crossover)"%string
  /\ (200 <= List.length dip_and_rise)%nat.
Proof.
  assert (E : Schema.trend_direction
                (insights_of plain Pandas.NoFill dip_and_rise)
              = "Bullish (SMA crossover)"%string)
    by (vm_compute; reflexivity).
  split; [exact E|].
  apply (proj2 (trend_labels_spec plain Pandas.NoFill dip_and_rise)).
  left. exact E.
Defined.

Lemma strftime_round_trip_witness :
  strftime (2024, 2, 29)%Z = "2024-02-29"%string
  /\ validate_date (strftime (2024, 2, 29)%Z) = true.
Proof.
  assert (Hcal : Spec.calendar_date 2024 2 29)
    by (unfold Spec.calendar_date; simpl; lia).
  destruct (strftime_round_trip 2024 2 29 ltac:(lia) Hcal) as (E & _ & _ & V).
  split; [rewrite E; reflexivity | exact V].
Defined.

End MoreWitnesses.
